(** * Weather dashboard (src/weather_dashboard.py): model and properties

    The program is a sequential batch job: for each city of a fixed list it
    fetches two JSON documents over HTTP, uploads both to an S3 bucket and
    plots the forecast.  Everything it does is an effect on the outside
    world, so the embedding is a state-and-exception monad over a [world]
    made of
      - a heap of Python objects (the fetched payloads are mutable dicts
        that [save_to_s3] stamps in place), and
      - the chronological trace of calls to the outside (console, HTTP,
        S3, matplotlib).
    The outside itself (HTTP server, S3 service, wall clock, the [json]
    module, the process environment, the construction of the boto3
    client, matplotlib) is an [env] of response functions. *)

From Stdlib Require Import ZArith String Ascii List Floats Lia Bool DecimalString.
From stdpp Require Import base option list.
Import ListNotations.
Local Open Scope string_scope.
Local Open Scope list_scope.

(** ** JSON documents as Python holds them *)

#[local] Set Warnings "-register-all".

(** [json.loads] maps an integer literal to [int], any other number to
    [float] (IEEE binary64), an object to an insertion-ordered [dict]. *)
Inductive json : Type :=
| JNull
| JBool (b : bool)
| JInt (n : Z)
| JFloat (f : float)
| JStr (s : string)
| JArr (items : list json)
| JObj (fields : list (string * json)).

(** Python truthiness, [bool(x)]. *)
Definition truthy (j : json) : bool :=
  match j with
  | JNull => false
  | JBool b => b
  | JInt n => negb (n =? 0)%Z
  | JFloat f => negb (PrimFloat.eqb f 0%float)
  | JStr s => negb (s =? EmptyString)
  | JArr items => match items with [] => false | _ :: _ => true end
  | JObj fields => match fields with [] => false | _ :: _ => true end
  end.

(** [d[k]] on a dict: first binding of [k]. *)
Fixpoint dict_get (fields : list (string * json)) (k : string) : option json :=
  match fields with
  | [] => None
  | (k', v) :: rest => if k' =? k then Some v else dict_get rest k
  end.

(** [d[k] = v] on a dict: an existing key keeps its position and gets the
    new value, a new key is appended. *)
Fixpoint dict_set (fields : list (string * json)) (k : string) (v : json)
  : list (string * json) :=
  match fields with
  | [] => [(k, v)]
  | (k', v') :: rest =>
      if k' =? k then (k', v) :: rest else (k', v') :: dict_set rest k v
  end.

(** ** Exceptions *)

(** The exception classes the program can meet.  [str_of_exn] is the text
    an f-string shows for [{e}]. *)
Inductive exn : Type :=
| ClientError (code : string) (msg : string)
    (* botocore.exceptions.ClientError: an error response of the service;
       [code] is e.response['Error']['Code'] *)
| BotoCoreError (msg : string)
    (* botocore client-side failures (no credentials, no endpoint, invalid
       parameters): not a subclass of ClientError *)
| RequestException (msg : string)
    (* requests.exceptions.RequestException and its subclasses *)
| KeyError (key : string)
| TypeError (msg : string)
| OtherError (cls : string) (msg : string).
    (* an exception of a class the program has no handler for, raised
       inside a library: RecursionError or ValueError out of the JSON
       decoder, InvalidRegionError out of boto3.client, whatever
       matplotlib raises on values it cannot draw; [cls] is the name of
       the class *)

Definition str_of_exn (e : exn) : string :=
  match e with
  | ClientError _ msg => msg
  | BotoCoreError msg => msg
  | RequestException msg => msg
  | KeyError key => "'" ++ key ++ "'"
  | TypeError msg => msg
  | OtherError _ msg => msg
  end.

Definition is_ClientError (e : exn) : bool :=
  match e with ClientError _ _ => true | _ => false end.

Definition is_RequestException (e : exn) : bool :=
  match e with RequestException _ => true | _ => false end.

(** ** The outside world *)

(** Query parameters as passed to [requests.get]; a [None] value is how an
    unset environment variable arrives. *)
Definition params := list (string * option string).

Inductive plt_call : Type :=
| PltFigure (width height : Z)
| PltPlot (xs ys : list json) (marker : string)
| PltTitle (s : string)
| PltXlabel (s : string)
| PltYlabel (s : string)
| PltGrid (on : bool)
| PltXticks (rotation : Z)
| PltTightLayout
| PltShow.

Inductive event : Type :=
| EPrint (line : string)
| EGet (url : string) (query : params)
| EHeadBucket (bucket : option string)
| ECreateBucket (bucket : option string)
| EPutObject (bucket : option string) (key : string) (body : string)
             (content_type : string)
| EPlt (call : plt_call).

Definition trace := list event.

(** What [requests.get] hands back once redirects have been followed. *)
Record response : Type := {
  status_code : nat;
  reason : string;
  url : string;
  text : string
}.

Inductive http_result : Type :=
| HttpResponse (r : response)
| HttpFailure (msg : string).
    (* connection error, timeout, too many redirects, ...: a
       RequestException raised by requests.get itself *)

Inductive s3_result : Type :=
| S3Ok
| S3ClientError (code : string) (msg : string)
| S3BotoCoreError (msg : string).

Record datetime : Type := {
  year : nat; month : nat; day : nat;
  hour : nat; minute : nat; second : nat
}.

(** What [json.loads] does with the text of a response body, as
    [response.json()] meets it. *)
Inductive decoded : Type :=
| Decoded (doc : json)
| NotJSON (msg : string)
    (* json.JSONDecodeError, which requests raises again as its own
       JSONDecodeError, a RequestException *)
| DecoderRaises (cls : string) (msg : string).
    (* any other exception of the decoder, which requests lets through:
       RecursionError on a body nested deeper than the interpreter's
       stack, ValueError on an integer literal longer than the
       interpreter's limit for int conversion *)

(** What [boto3.client('s3', region_name=...)] does: botocore checks the
    region name when it builds the client and raises an exception of its
    own (InvalidRegionError) on a name of the wrong shape. *)
Inductive client_result : Type :=
| ClientBuilt
| ClientRefused (cls : string) (msg : string).

(** Responses of the outside, each a function of the calls made so far. *)
Record env : Type := {
  getenv : string -> option string;
  requests_get : trace -> string -> params -> http_result;
  head_bucket : trace -> option string -> s3_result;
  create_bucket : trace -> option string -> s3_result;
  put_object : trace -> option string -> string -> string -> string -> s3_result;
  datetime_now : trace -> datetime;
  json_dumps : json -> string;
  json_loads : string -> decoded;
  boto3_client : option string -> client_result;
    (* from the region name *)
  matplotlib : trace -> plt_call -> option (string * string)
    (* the class and message of the exception a pyplot call raises, if it
       raises one *)
}.

(** Python objects live in a heap; a variable holds [None] or a reference. *)
Abbreviation loc := nat (only parsing).

Inductive value : Type :=
| VNone
| VRef (l : loc).

Record world : Type := {
  heap : list json;
  events : trace
}.

(** ** The monad: state plus exceptions *)

Inductive result (A : Type) : Type :=
| Ret (a : A)
| Raise (e : exn).
Arguments Ret {A} a.
Arguments Raise {A} e.

Definition M (A : Type) : Type := world -> result A * world.

Definition ret {A} (a : A) : M A := fun w => (Ret a, w).

Definition raise {A} (e : exn) : M A := fun w => (Raise e, w).

Definition bind {A B} (m : M A) (k : A -> M B) : M B :=
  fun w =>
    match m w with
    | (Ret a, w') => k a w'
    | (Raise e, w') => (Raise e, w')
    end.

(** [try: m except cls as e: handler e] *)
Definition try_except {A} (m : M A) (cls : exn -> bool) (handler : exn -> M A)
  : M A :=
  fun w =>
    match m w with
    | (Ret a, w') => (Ret a, w')
    | (Raise e, w') => if cls e then handler e w' else (Raise e, w')
    end.

Declare Scope py_scope.
Delimit Scope py_scope with py.
Notation "x <- m ;; k" := (bind m (fun x => k))
  (at level 100, m at next level, right associativity) : py_scope.
Notation "m ;; k" := (bind m (fun _ => k))
  (at level 100, right associativity) : py_scope.
Local Open Scope py_scope.

Definition emit (e : event) : M unit :=
  fun w => (Ret tt, {| heap := heap w; events := events w ++ [e] |}).

Definition print (line : string) : M unit := emit (EPrint line).

Definition get_events : M trace := fun w => (Ret (events w), w).

Definition alloc (j : json) : M loc :=
  fun w => (Ret (length (heap w)),
            {| heap := heap w ++ [j]; events := events w |}).

(** Reading a reference.  The program only holds references that [alloc]
    gave out, so the second case is never taken by a run from a world that
    holds what its variables refer to. *)
Definition deref (l : loc) : M json :=
  fun w =>
    match heap w !! l with
    | Some j => (Ret j, w)
    | None => (Raise (TypeError "dangling reference"), w)
    end.

Definition store (l : loc) (j : json) : M unit :=
  fun w => (Ret tt, {| heap := <[l := j]> (heap w); events := events w |}).

Definition lift {A} (r : result A) : M A := fun w => (r, w).

(** ** Python and library primitives the program uses *)

(** f-string rendering of a value that may be [None]. *)
Definition fmt (s : option string) : string :=
  match s with Some s => s | None => "None" end.

Definition str_of_nat (n : nat) : string :=
  DecimalString.NilZero.string_of_uint (Nat.to_uint n).

Definition digit (n : nat) : ascii := ascii_of_nat (48 + n mod 10).

Definition pad2 (n : nat) : string :=
  String (digit (n / 10)) (String (digit n) EmptyString).

Definition pad4 (n : nat) : string :=
  String (digit (n / 1000)) (String (digit (n / 100)) (pad2 n)).

(** [dt.strftime('%Y%m%d-%H%M%S')]: zero-padded decimal fields. *)
Definition strftime (dt : datetime) : string :=
  pad4 (year dt) ++ pad2 (month dt) ++ pad2 (day dt) ++ "-"
  ++ pad2 (hour dt) ++ pad2 (minute dt) ++ pad2 (second dt).

(** The name Python shows for the type of a value in a [TypeError]. *)
Definition type_name (j : json) : string :=
  match j with
  | JNull => "NoneType"
  | JBool _ => "bool"
  | JInt _ => "int"
  | JFloat _ => "float"
  | JStr _ => "str"
  | JArr _ => "list"
  | JObj _ => "dict"
  end.

(** [j[k]] for a string key [k]. *)
Definition subscript (j : json) (k : string) : result json :=
  match j with
  | JObj fields =>
      match dict_get fields k with
      | Some v => Ret v
      | None => Raise (KeyError k)
      end
  | JArr _ => Raise (TypeError "list indices must be integers or slices, not str")
  | JStr _ => Raise (TypeError "string indices must be integers, not 'str'")
  | _ => Raise (TypeError ("'" ++ type_name j ++ "' object is not subscriptable"))
  end.

Fixpoint chars (s : string) : list json :=
  match s with
  | EmptyString => []
  | String c rest => JStr (String c EmptyString) :: chars rest
  end.

(** The items [for entry in j] goes through. *)
Definition iterate (j : json) : result (list json) :=
  match j with
  | JArr items => Ret items
  | JStr s => Ret (chars s)
  | JObj fields => Ret (map (fun kv => JStr (fst kv)) fields)
  | _ => Raise (TypeError ("'" ++ type_name j ++ "' object is not iterable"))
  end.

(** A list comprehension [[f x for x in xs]]: left to right, the first
    exception ends it. *)
Fixpoint comprehension {A B} (f : A -> result B) (xs : list A)
  : result (list B) :=
  match xs with
  | [] => Ret []
  | x :: rest =>
      match f x with
      | Raise e => Raise e
      | Ret y =>
          match comprehension f rest with
          | Raise e => Raise e
          | Ret ys => Ret (y :: ys)
          end
      end
  end.

(** [bool(v)] of a variable. *)
Definition py_bool (v : value) : M bool :=
  match v with
  | VNone => ret false
  | VRef l => j <- deref l ;; ret (truthy j)
  end.

(** [v[k]] of a variable. *)
Definition getitem (v : value) (k : string) : M json :=
  match v with
  | VNone => raise (TypeError "'NoneType' object is not subscriptable")
  | VRef l => j <- deref l ;; lift (subscript j k)
  end.

(** [v[k] = x] of a variable: only a dict takes a string key. *)
Definition setitem (v : value) (k : string) (x : json) : M unit :=
  match v with
  | VNone =>
      raise (TypeError "'NoneType' object does not support item assignment")
  | VRef l =>
      j <- deref l ;;
      match j with
      | JObj fields => store l (JObj (dict_set fields k x))
      | JArr _ =>
          raise (TypeError "list indices must be integers or slices, not str")
      | _ =>
          raise (TypeError ("'" ++ type_name j
                            ++ "' object does not support item assignment"))
      end
  end.

(** The document [json.dumps(v)] serializes. *)
Definition document (v : value) : M json :=
  match v with
  | VNone => ret JNull
  | VRef l => deref l
  end.

(** [response.raise_for_status()] of the requests library: an [HTTPError]
    (a [RequestException]) for the 4xx and 5xx codes, nothing otherwise. *)
Definition raise_for_status (r : response) : M unit :=
  if ((400 <=? status_code r) && (status_code r <? 500))%nat then
    raise (RequestException
             (str_of_nat (status_code r) ++ " Client Error: " ++ reason r
              ++ " for url: " ++ url r))
  else if ((500 <=? status_code r) && (status_code r <? 600))%nat then
    raise (RequestException
             (str_of_nat (status_code r) ++ " Server Error: " ++ reason r
              ++ " for url: " ++ url r))
  else ret tt.

Section Program.

Context (E : env).

(** [requests.get(base_url, params=params)] *)
Definition get (base_url : string) (query : params) : M response :=
  history <- get_events ;;
  emit (EGet base_url query) ;;
  match requests_get E history base_url query with
  | HttpResponse r => ret r
  | HttpFailure msg => raise (RequestException msg)
  end.

(** [response.json()]: a fresh Python object for the parsed body ([None]
    for the document [null]); a body that is not JSON raises
    [requests.exceptions.JSONDecodeError], a [RequestException]; any other
    exception of the decoder comes out as it is. *)
Definition response_json (r : response) : M value :=
  match json_loads E (text r) with
  | Decoded JNull => ret VNone
  | Decoded j => l <- alloc j ;; ret (VRef l)
  | NotJSON msg => raise (RequestException msg)
  | DecoderRaises cls msg => raise (OtherError cls msg)
  end.

(** A call of the boto3 client: the service sees the call, then answers. *)
Definition s3_call (call : event) (answer : trace -> s3_result) : M unit :=
  history <- get_events ;;
  emit call ;;
  match answer history with
  | S3Ok => ret tt
  | S3ClientError code msg => raise (ClientError code msg)
  | S3BotoCoreError msg => raise (BotoCoreError msg)
  end.

(** [e.response['Error']['Code']] *)
Definition error_code (e : exn) : string :=
  match e with ClientError code _ => code | _ => EmptyString end.

Definition now : M datetime :=
  history <- get_events ;; ret (datetime_now E history).

(** [class WeatherDashboard]: the attributes [__init__] sets. *)
Record WeatherDashboard : Type := {
  api_key : option string;
  bucket_name : option string;
  region_name : option string   (* of [s3_client] *)
}.

(** The instance [__init__] leaves when it returns. *)
Definition attributes : WeatherDashboard :=
  {| api_key := getenv E "OPENWEATHER_API_KEY";
     bucket_name := getenv E "AWS_BUCKET_NAME";
     region_name := getenv E "AWS_REGION" |}.

(** [WeatherDashboard()], that is [__init__]: reads the three variables
    and builds the S3 client, which can raise. *)
Definition init : M WeatherDashboard :=
  let api_key := getenv E "OPENWEATHER_API_KEY" in
  let bucket_name := getenv E "AWS_BUCKET_NAME" in
  match boto3_client E (getenv E "AWS_REGION") with
  | ClientBuilt =>
      ret {| api_key := api_key;
             bucket_name := bucket_name;
             region_name := getenv E "AWS_REGION" |}
  | ClientRefused cls msg => raise (OtherError cls msg)
  end.

Context (self : WeatherDashboard).

Definition create_bucket_if_not_exists : M unit :=
  try_except
    (s3_call (EHeadBucket (bucket_name self))
             (fun h => head_bucket E h (bucket_name self)) ;;
     print ("Bucket " ++ fmt (bucket_name self) ++ " exists"))
    is_ClientError
    (fun e =>
       if error_code e =? "404" then
         print ("Creating bucket " ++ fmt (bucket_name self)) ;;
         try_except
           (s3_call (ECreateBucket (bucket_name self))
                    (fun h => create_bucket E h (bucket_name self)) ;;
            print ("Successfully created bucket " ++ fmt (bucket_name self)))
           is_ClientError
           (fun create_error =>
              print ("Error creating bucket: " ++ str_of_exn create_error))
       else ret tt).

Definition fetch_weather (city : string) : M value :=
  let base_url := "http://api.openweathermap.org/data/2.5/weather" in
  let query := [("q", Some city); ("appid", api_key self);
                ("units", Some "imperial")] in
  try_except
    (response <- get base_url query ;;
     raise_for_status response ;;
     response_json response)
    is_RequestException
    (fun e =>
       print ("Error fetching weather data: " ++ str_of_exn e) ;;
       ret VNone).

Definition fetch_forecast (city : string) : M value :=
  let base_url := "http://api.openweathermap.org/data/2.5/forecast" in
  let query := [("q", Some city); ("appid", api_key self);
                ("units", Some "imperial")] in
  try_except
    (response <- get base_url query ;;
     raise_for_status response ;;
     response_json response)
    is_RequestException
    (fun e =>
       print ("Error fetching weather forecast: " ++ str_of_exn e) ;;
       ret VNone).

Definition save_to_s3 (weather_data : value) (file_name : string) : M bool :=
  t <- py_bool weather_data ;;
  if negb t then ret false
  else
    dt <- now ;;
    let timestamp := strftime dt in
    try_except
      (setitem weather_data "timestamp" (JStr timestamp) ;;
       doc <- document weather_data ;;
       s3_call (EPutObject (bucket_name self)
                           ("weather-data/" ++ file_name ++ ".json")
                           (json_dumps E doc)
                           "application/json")
               (fun h => put_object E h (bucket_name self)
                           ("weather-data/" ++ file_name ++ ".json")
                           (json_dumps E doc)
                           "application/json") ;;
       print ("Successfully saved data for " ++ file_name ++ " to S3") ;;
       ret true)
      is_ClientError
      (fun e =>
         print ("Error saving to S3: " ++ str_of_exn e) ;;
         ret false).

(** The two list comprehensions of [visualize_weather]. *)
Definition timestamps_of (weather_data : value) : M (list json) :=
  lst <- getitem weather_data "list" ;;
  entries <- lift (iterate lst) ;;
  lift (comprehension (fun entry => subscript entry "dt_txt") entries).

Definition temps_of (weather_data : value) : M (list json) :=
  lst <- getitem weather_data "list" ;;
  entries <- lift (iterate lst) ;;
  lift (comprehension
          (fun entry =>
             match subscript entry "main" with
             | Ret main => subscript main "temp"
             | Raise e => Raise e
             end)
          entries).

(** A call of [matplotlib.pyplot]: the library is entered, then draws or
    raises. *)
Definition plt (call : plt_call) : M unit :=
  history <- get_events ;;
  emit (EPlt call) ;;
  match matplotlib E history call with
  | None => ret tt
  | Some (cls, msg) => raise (OtherError cls msg)
  end.

Definition visualize_weather (weather_data : value) : M unit :=
  timestamps <- timestamps_of weather_data ;;
  temps <- temps_of weather_data ;;
  plt (PltFigure 10 5) ;;
  plt (PltPlot timestamps temps "o") ;;
  plt (PltTitle "Temperature Forecast Over Time") ;;
  plt (PltXlabel "Time") ;;
  plt (PltYlabel "Temperature (Â°F)") ;;
  plt (PltGrid true) ;;
  plt (PltXticks 45) ;;
  plt PltTightLayout ;;
  plt PltShow.

(** The body of the [for city in cities] loop of [main]. *)
Definition main_body (city : string) : M unit :=
  print (String "010" ("Fetching weather for " ++ city ++ "...")) ;;
  weather_data <- fetch_weather city ;;
  forecast_data <- fetch_forecast city ;;
  both <- (t <- py_bool weather_data ;;
           if t then py_bool forecast_data else ret false) ;;
  if both then
    save_to_s3 weather_data (city ++ "_current") ;;
    save_to_s3 forecast_data (city ++ "_forecast") ;;
    visualize_weather forecast_data ;;
    print ("Weather and forecast data for " ++ city ++ " saved to S3!")
  else
    print ("Failed to fetch weather data for " ++ city).

End Program.

(** [for x in xs: body x] *)
Fixpoint for_each {A} (xs : list A) (body : A -> M unit) : M unit :=
  match xs with
  | [] => ret tt
  | x :: rest => body x ;; for_each rest body
  end.

Definition cities : list string := ["Philadelphia"; "Seattle"; "New York"].

Definition main (E : env) : M unit :=
  dashboard <- init E ;;
  create_bucket_if_not_exists E dashboard ;;
  for_each cities (main_body E dashboard).

(** ** What a run shows *)

(** What a variable holds in a world: [None] reads as the document
    [null]. *)
Definition contents (w : world) (v : value) : option json :=
  match v with
  | VNone => Some JNull
  | VRef l => heap w !! l
  end.

(** The world after more calls to the outside. *)
Definition after (w : world) (more : list event) : world :=
  {| heap := heap w; events := events w ++ more |}.

(** The object key of a save, f"weather-data/{file_name}.json". *)
Definition key_of (file_name : string) : string :=
  "weather-data/" ++ file_name ++ ".json".

(** The payload once [save_to_s3] has set its timestamp in world [w]. *)
Definition stamped (E : env) (w : world) (fields : list (string * json)) : json :=
  JObj (dict_set fields "timestamp"
                 (JStr (strftime (datetime_now E (events w))))).

(** The upload call of a save of [doc]. *)
Definition upload (E : env) (self : WeatherDashboard) (file_name : string)
    (doc : json) : event :=
  EPutObject (bucket_name self) (key_of file_name) (json_dumps E doc)
             "application/json".

(** The query both fetch operations send. *)
Definition query_of (self : WeatherDashboard) (city : string) : params :=
  [("q", Some city); ("appid", api_key self); ("units", Some "imperial")].

(** The status codes [raise_for_status] raises for. *)
Definition is_http_error (r : response) : bool :=
  ((400 <=? status_code r) && (status_code r <? 600))%nat.

Definition is_put (e : event) : bool :=
  match e with EPutObject _ _ _ _ => true | _ => false end.

Definition is_create (e : event) : bool :=
  match e with ECreateBucket _ => true | _ => false end.

Definition is_plt (e : event) : bool :=
  match e with EPlt _ => true | _ => false end.

Definition is_print (e : event) : bool :=
  match e with EPrint _ => true | _ => false end.

(** The object uploads of a trace, in order. *)
Definition storage_writes (t : trace) : list event := List.filter is_put t.

(** The bucket creation calls of a trace. *)
Definition creations (t : trace) : list event := List.filter is_create t.

(** The matplotlib calls of a trace. *)
Definition plots (t : trace) : list event := List.filter is_plt t.

(** The console lines of a trace. *)
Definition console (t : trace) : list event := List.filter is_print t.

(** What a fetch operation does with a city: one GET with the query of
    [query_of]; the parsed body comes back when the request went through
    with a status that [raise_for_status] accepts and the body parses;
    [None] comes back after one console line when the request failed, the
    status is a 4xx or 5xx, or the body is not JSON; an exception of the
    decoder that is not a decode error goes on to the caller. *)
Definition fetch_contract (E : env) (self : WeatherDashboard)
    (fetch : string -> M value) (base_url prefix : string) : Prop :=
  forall (city : string) (w : world),
    exists (r : result value) (w' : world) (log : list event),
      fetch city w = (r, w')
      /\ events w' = events w ++ EGet base_url (query_of self city) :: log
      /\ match requests_get E (events w) base_url (query_of self city) with
         | HttpFailure msg =>
             r = Ret VNone /\ log = [EPrint (prefix ++ msg)]
             /\ heap w' = heap w
         | HttpResponse resp =>
             if is_http_error resp then
               r = Ret VNone /\ heap w' = heap w
               /\ exists msg, log = [EPrint (prefix ++ msg)]
             else
               match json_loads E (text resp) with
               | Decoded JNull => r = Ret VNone /\ log = [] /\ heap w' = heap w
               | Decoded j =>
                   r = Ret (VRef (length (heap w))) /\ log = []
                   /\ heap w' = heap w ++ [j]
               | NotJSON msg =>
                   r = Ret VNone /\ log = [EPrint (prefix ++ msg)]
                   /\ heap w' = heap w
               | DecoderRaises cls msg =>
                   r = Raise (OtherError cls msg) /\ log = []
                   /\ heap w' = heap w
               end
         end.

(** Calls that leave storage and the chart alone. *)
Definition quiet (log : list event) : Prop :=
  storage_writes log = [] /\ creations log = [] /\ plots log = [].

(** A bucket is known after [h] when a probe or a creation call for it in
    [h] was answered with success. *)
Definition bucket_known (E : env) (h : trace) (b : option string) : Prop :=
  exists h1 h2,
    (h = h1 ++ EHeadBucket b :: h2 /\ head_bucket E h1 b = S3Ok)
    \/ (h = h1 ++ ECreateBucket b :: h2 /\ create_bucket E h1 b = S3Ok).

(** The service keeps its buckets: a known bucket is found by every later
    probe. *)
Definition keeps_buckets (E : env) (b : option string) : Prop :=
  forall h, bucket_known E h b -> head_bucket E h b = S3Ok.

(** The patterns needed for the timestamp: a sequence of digit classes
    and literal characters, matched against the whole string. *)
Inductive atom : Type :=
| Digit
| Lit (c : ascii).

Definition is_digit (c : ascii) : bool :=
  (48 <=? nat_of_ascii c)%nat && (nat_of_ascii c <=? 57)%nat.

Fixpoint fullmatch (pattern : list atom) (s : string) : bool :=
  match pattern, s with
  | [], EmptyString => true
  | Digit :: pattern', String c rest => is_digit c && fullmatch pattern' rest
  | Lit c' :: pattern', String c rest => (c =? c')%char && fullmatch pattern' rest
  | _, _ => false
  end.

(** [\d{8}-\d{6}] *)
Definition stamp_pattern : list atom :=
  repeat Digit 8 ++ [Lit "-"] ++ repeat Digit 6.

(** A text of decimal digits read as a number. *)
Fixpoint number_of (s : string) (acc : nat) : option nat :=
  match s with
  | EmptyString => Some acc
  | String c rest =>
      if is_digit c then number_of rest (10 * acc + (nat_of_ascii c - 48))
      else None
  end.

(** YYYYMMDD-HHMMSS read back: four digits of year, two of month, two of
    day, a hyphen, two digits each of hour, minute and second. *)
Definition read_stamp (s : string) : option datetime :=
  if ((String.length s =? 15)%nat && (substring 8 1 s =? "-")%string)%bool then
    match number_of (substring 0 4 s) 0, number_of (substring 4 2 s) 0,
          number_of (substring 6 2 s) 0, number_of (substring 9 2 s) 0,
          number_of (substring 11 2 s) 0, number_of (substring 13 2 s) 0 with
    | Some Y, Some m, Some d, Some H, Some M', Some S' =>
        Some {| year := Y; month := m; day := d;
                hour := H; minute := M'; second := S' |}
    | _, _, _, _, _, _ => None
    end
  else None.

(** The JSON library gives back the document it wrote. *)
Definition round_trips (E : env) (doc : json) : Prop :=
  json_loads E (json_dumps E doc) = Decoded doc.

(** ** What a run may add to the trace *)

(** Every call that [m] adds to the trace, from any world and whatever
    its outcome, satisfies [P]. *)
Definition adds {A} (P : event -> Prop) (m : M A) : Prop :=
  forall (w : world) (r : result A) (w' : world),
    m w = (r, w') ->
    exists more : list event, events w' = events w ++ more /\ Forall P more.

(** The nine matplotlib calls of [visualize_weather] for the series [xs]
    and [ys]. *)
Definition chart (xs ys : list json) : list event :=
  [EPlt (PltFigure 10 5);
   EPlt (PltPlot xs ys "o");
   EPlt (PltTitle "Temperature Forecast Over Time");
   EPlt (PltXlabel "Time");
   EPlt (PltYlabel "Temperature (Â°F)");
   EPlt (PltGrid true);
   EPlt (PltXticks 45);
   EPlt PltTightLayout;
   EPlt PltShow].

(** The same nine calls as pyplot gets them. *)
Definition pyplot_calls (xs ys : list json) : list plt_call :=
  [PltFigure 10 5;
   PltPlot xs ys "o";
   PltTitle "Temperature Forecast Over Time";
   PltXlabel "Time";
   PltYlabel "Temperature (Â°F)";
   PltGrid true;
   PltXticks 45;
   PltTightLayout;
   PltShow].

(** Matplotlib draws the chart of [xs] and [ys]: none of the nine calls
    raises, whatever came before it. *)
Definition draws (E : env) (xs ys : list json) : Prop :=
  forall (h : trace) (call : plt_call),
    In call (pyplot_calls xs ys) -> matplotlib E h call = None.

(** The two kinds of object [main] saves for a city, and the names it
    gives them: f"{city}_current" and f"{city}_forecast". *)
Inductive kind : Type :=
| Current
| Forecast.

Definition suffix (k : kind) : string :=
  match k with
  | Current => "_current"
  | Forecast => "_forecast"
  end.

Definition file_name_of (city : string) (k : kind) : string :=
  city ++ suffix k.

(** The calls of the storage bootstrap: console lines, and the probe and
    the creation of the configured bucket. *)
Definition bootstrap_call (self : WeatherDashboard) (e : event) : Prop :=
  match e with
  | EPrint _ => True
  | EHeadBucket b => b = bucket_name self
  | ECreateBucket b => b = bucket_name self
  | _ => False
  end.

(** The calls of the loop over [towns]: console lines, chart calls, GET
    requests to the two endpoints with the query of a town, and uploads
    into the configured bucket of a JSON text under the key of a town and
    a kind. *)
Definition loop_call (E : env) (self : WeatherDashboard) (towns : list string)
    (e : event) : Prop :=
  match e with
  | EPrint _ => True
  | EPlt _ => True
  | EGet base_url query =>
      (base_url = "http://api.openweathermap.org/data/2.5/weather"
       \/ base_url = "http://api.openweathermap.org/data/2.5/forecast")
      /\ exists city, In city towns /\ query = query_of self city
  | EPutObject b key body content_type =>
      b = bucket_name self
      /\ content_type = "application/json"
      /\ (exists city k, In city towns /\ key = key_of (file_name_of city k))
      /\ exists doc, body = json_dumps E doc
  | EHeadBucket _ => False
  | ECreateBucket _ => False
  end.




(** The loop body of [main] from the test [if weather_data and
    forecast_data] on, for the two values the fetches returned. *)
Definition after_fetches (E : env) (self : WeatherDashboard) (city : string)
    (weather_data forecast_data : value) : M unit :=
  both <- (t <- py_bool weather_data ;;
           if t then py_bool forecast_data else ret false) ;;
  if both then
    save_to_s3 E self weather_data (city ++ "_current") ;;
    save_to_s3 E self forecast_data (city ++ "_forecast") ;;
    visualize_weather E forecast_data ;;
    print ("Weather and forecast data for " ++ city ++ " saved to S3!")
  else
    print ("Failed to fetch weather data for " ++ city).

(** The ranges of the fields of a Python [datetime]. *)
Definition valid_datetime (dt : datetime) : Prop :=
  1 <= year dt < 100 * 100
  /\ 1 <= month dt <= 12
  /\ 1 <= day dt <= 31
  /\ hour dt < 24
  /\ minute dt < 60
  /\ second dt < 60.

(** ** A reference environment for examples

    A small JSON codec (printable-ASCII strings; numbers written in plain
    decimal; integer literals limited in length as [int] limits them), an
    S3 service that remembers the buckets created, botocore's check of
    the region name, a pyplot that refuses what [float()] refuses, a
    weather server and a fixed clock.  They instantiate [env] in the
    examples below. *)
Module Demo.

Definition str_of_Z (n : Z) : string :=
  DecimalString.NilZero.string_of_int (Z.to_int n).

Fixpoint escape (s : string) : string :=
  match s with
  | EmptyString => EmptyString
  | String c rest =>
      if (c =? "034")%char then String "\" (String "034" (escape rest))
      else if (c =? "\")%char then String "\" (String "\" (escape rest))
      else if (c =? "010")%char then String "\" (String "n" (escape rest))
      else String c (escape rest)
  end.

Definition quoted (s : string) : string :=
  String "034" (escape s ++ String "034" EmptyString).

(** Trailing zeros of the fraction [num / 10^k] removed, one digit kept. *)
Fixpoint trim (fuel : nat) (num : Z) (k : nat) : Z * nat :=
  match fuel, k with
  | S fuel, S (S k') =>
      if (num mod 10 =? 0)%Z then trim fuel (num / 10)%Z (S k') else (num, k)
  | _, _ => (num, k)
  end.

Fixpoint zeros (n : nat) : string :=
  match n with 0 => EmptyString | S n => String "0" (zeros n) end.

(** The exact decimal expansion of a finite binary64 number. *)
Definition float_text (f : float) : string :=
  match Prim2SF f with
  | S754_zero s => if s then "-0.0" else "0.0"
  | S754_infinity s => if s then "-Infinity" else "Infinity"
  | S754_nan => "NaN"
  | S754_finite s m e =>
      let '(num, k) :=
        if (0 <=? e)%Z then ((Z.pos m * 2 ^ e * 10)%Z, 1)
        else trim (Z.to_nat (- e)) (Z.pos m * 5 ^ (- e))%Z (Z.to_nat (- e)) in
      let whole := (num / 10 ^ Z.of_nat k)%Z in
      let frac := str_of_Z (num mod 10 ^ Z.of_nat k)%Z in
      ((if s then "-" else EmptyString) ++ str_of_Z whole ++ "."
       ++ zeros (k - String.length frac) ++ frac)%string
  end.

Fixpoint dumps (j : json) : string :=
  match j with
  | JNull => "null"
  | JBool b => if b then "true" else "false"
  | JInt n => str_of_Z n
  | JFloat f => float_text f
  | JStr s => quoted s
  | JArr items =>
      let fix go (xs : list json) : string :=
        match xs with
        | [] => EmptyString
        | [x] => dumps x
        | x :: rest => (dumps x ++ ", " ++ go rest)%string
        end in
      ("[" ++ go items ++ "]")%string
  | JObj fields =>
      let fix go (kvs : list (string * json)) : string :=
        match kvs with
        | [] => EmptyString
        | [(k, v)] => (quoted k ++ ": " ++ dumps v)%string
        | (k, v) :: rest => (quoted k ++ ": " ++ dumps v ++ ", " ++ go rest)%string
        end in
      ("{" ++ go fields ++ "}")%string
  end.

Definition is_ws (c : ascii) : bool :=
  ((c =? " ") || (c =? "009") || (c =? "010") || (c =? "013"))%char.

Fixpoint skip_ws (s : string) : string :=
  match s with
  | String c rest => if is_ws c then skip_ws rest else s
  | EmptyString => s
  end.

(** Leading digits of [s] read into [acc]; how many there were. *)
Fixpoint digits (s : string) (acc : Z) (count : nat) : Z * nat * string :=
  match s with
  | String c rest =>
      if is_digit c
      then digits rest (10 * acc + Z.of_nat (nat_of_ascii c - 48))%Z (S count)
      else (acc, count, s)
  | EmptyString => (acc, count, s)
  end.

Definition float_of_Z (n : Z) : float :=
  if (n <? 0)%Z then PrimFloat.opp (PrimFloat.of_uint63 (Uint63.of_Z (- n)))
  else PrimFloat.of_uint63 (Uint63.of_Z n).

(** The outcome of reading a value off the front of a text. *)
Inductive parse (A : Type) : Type :=
| Parsed (a : A) (rest : string)
| Malformed
| Refused (cls : string) (msg : string).
Arguments Parsed {A} a rest.
Arguments Malformed {A}.
Arguments Refused {A} cls msg.

(** [sys.get_int_max_str_digits()] *)
Definition int_max_str_digits : nat := 4300.

(** A number: an integer literal is an [int], one with a fraction a
    [float].  [int] refuses a literal of more than
    [int_max_str_digits] digits with a ValueError. *)
Definition number (negative : bool) (s : string) : parse json :=
  let sign (n : Z) := if negative then (- n)%Z else n in
  match digits s 0 0 with
  | (_, 0, _) => Malformed
  | (whole, _, String "." rest) =>
      match digits rest whole 0 with
      | (_, 0, _) => Malformed
      | (num, k, rest') =>
          let f := PrimFloat.div (float_of_Z num) (float_of_Z (10 ^ Z.of_nat k)) in
          Parsed (JFloat (if negative then PrimFloat.opp f else f)) rest'
      end
  | (whole, count, rest) =>
      if (count <=? int_max_str_digits)%nat then Parsed (JInt (sign whole)) rest
      else
        Refused "ValueError"
          ("Exceeds the limit (4300 digits) for integer string conversion: value has "
           ++ str_of_nat count
           ++ " digits; use sys.set_int_max_str_digits() to increase the limit")
  end.

(** The text of a string literal after its opening quote. *)
Fixpoint string_body (s : string) : option (string * string) :=
  match s with
  | EmptyString => None
  | String c rest =>
      if (c =? "034")%char then Some (EmptyString, rest)
      else if (c =? "\")%char then
        match rest with
        | String e rest' =>
            let c' := if (e =? "n")%char then "010"%char else e in
            match string_body rest' with
            | Some (body, tail) => Some (String c' body, tail)
            | None => None
            end
        | EmptyString => None
        end
      else
        match string_body rest with
        | Some (body, tail) => Some (String c body, tail)
        | None => None
        end
  end.

Definition keyword (word : string) (j : json) (s : string) : parse json :=
  if String.prefix word s
  then Parsed j (String.substring (String.length word)
                                  (String.length s - String.length word) s)
  else Malformed.

Fixpoint parse_value (fuel : nat) (s : string) : parse json :=
  match fuel with
  | 0 => Malformed
  | S fuel =>
      match skip_ws s with
      | String "n" _ => keyword "null" JNull (skip_ws s)
      | String "t" _ => keyword "true" (JBool true) (skip_ws s)
      | String "f" _ => keyword "false" (JBool false) (skip_ws s)
      | String "N" _ => keyword "NaN" (JFloat PrimFloat.nan) (skip_ws s)
      | String "034" rest =>
          match string_body rest with
          | Some (body, tail) => Parsed (JStr body) tail
          | None => Malformed
          end
      | String "[" rest =>
          match skip_ws rest with
          | String "]" tail => Parsed (JArr []) tail
          | _ =>
              match parse_elements fuel rest with
              | Parsed items tail => Parsed (JArr items) tail
              | Malformed => Malformed
              | Refused cls msg => Refused cls msg
              end
          end
      | String "{" rest =>
          match skip_ws rest with
          | String "}" tail => Parsed (JObj []) tail
          | _ =>
              match parse_members fuel rest with
              | Parsed kvs tail =>
                  Parsed (JObj (fold_left (fun d kv => dict_set d (fst kv) (snd kv))
                                          kvs [])) tail
              | Malformed => Malformed
              | Refused cls msg => Refused cls msg
              end
          end
      | String "-" rest => number true rest
      | _ => number false (skip_ws s)
      end
  end
with parse_elements (fuel : nat) (s : string) : parse (list json) :=
  match fuel with
  | 0 => Malformed
  | S fuel =>
      match parse_value fuel s with
      | Parsed x tail =>
          match skip_ws tail with
          | String "," tail' =>
              match parse_elements fuel tail' with
              | Parsed xs tail'' => Parsed (x :: xs) tail''
              | Malformed => Malformed
              | Refused cls msg => Refused cls msg
              end
          | String "]" tail' => Parsed [x] tail'
          | _ => Malformed
          end
      | Malformed => Malformed
      | Refused cls msg => Refused cls msg
      end
  end
with parse_members (fuel : nat) (s : string) : parse (list (string * json)) :=
  match fuel with
  | 0 => Malformed
  | S fuel =>
      match skip_ws s with
      | String "034" rest =>
          match string_body rest with
          | Some (k, tail) =>
              match skip_ws tail with
              | String ":" tail' =>
                  match parse_value fuel tail' with
                  | Parsed v tail'' =>
                      match skip_ws tail'' with
                      | String "," more =>
                          match parse_members fuel more with
                          | Parsed kvs rest' => Parsed ((k, v) :: kvs) rest'
                          | Malformed => Malformed
                          | Refused cls msg => Refused cls msg
                          end
                      | String "}" rest' => Parsed [(k, v)] rest'
                      | _ => Malformed
                      end
                  | Malformed => Malformed
                  | Refused cls msg => Refused cls msg
                  end
              | _ => Malformed
              end
          | None => Malformed
          end
      | _ => Malformed
      end
  end.

Definition loads (s : string) : decoded :=
  match parse_value (S (String.length s)) s with
  | Parsed j tail =>
      match skip_ws tail with
      | EmptyString => Decoded j
      | _ => NotJSON "Extra data"
      end
  | Malformed => NotJSON "Expecting value"
  | Refused cls msg => DecoderRaises cls msg
  end.

(** An S3 service that keeps what was created: a bucket is there if it was
    there at the start or a creation call for it went through. *)
Fixpoint created (may_create : bool) (h : trace) (b : string) : bool :=
  match h with
  | [] => false
  | ECreateBucket (Some b') :: rest =>
      (may_create && (b' =? b)%string) || created may_create rest b
  | _ :: rest => created may_create rest b
  end.

Definition present (existing : list string) (may_create : bool) (h : trace)
    (b : string) : bool :=
  existsb (String.eqb b) existing || created may_create h b.

Definition s3_head (existing : list string) (may_create : bool) (h : trace)
    (bucket : option string) : s3_result :=
  match bucket with
  | None => S3BotoCoreError "Parameter validation failed"
  | Some b =>
      if present existing may_create h b then S3Ok
      else S3ClientError "404" "An error occurred (404) when calling the HeadBucket operation: Not Found"
  end.

Definition s3_create (may_create : bool) (h : trace) (bucket : option string)
  : s3_result :=
  match bucket with
  | None => S3BotoCoreError "Parameter validation failed"
  | Some b =>
      if may_create then S3Ok
      else S3ClientError "AccessDenied" "An error occurred (AccessDenied) when calling the CreateBucket operation: Access Denied"
  end.

Definition s3_put (existing : list string) (may_create : bool) (h : trace)
    (bucket : option string) (key body content_type : string) : s3_result :=
  match bucket with
  | None => S3BotoCoreError "Parameter validation failed"
  | Some b =>
      if present existing may_create h b then S3Ok
      else S3ClientError "NoSuchBucket" "An error occurred (NoSuchBucket) when calling the PutObject operation: The specified bucket does not exist"
  end.

Definition variables (name : string) : option string :=
  if name =? "OPENWEATHER_API_KEY" then Some "k3y"
  else if name =? "AWS_BUCKET_NAME" then Some "weather-bucket"
  else if name =? "AWS_REGION" then Some "us-east-1"
  else None.

Definition noon : datetime :=
  {| year := 2024; month := 1; day := 5; hour := 12; minute := 30; second := 7 |}.

Definition is_alnum (c : ascii) : bool :=
  let n := nat_of_ascii c in
  (is_digit c || ((65 <=? n) && (n <=? 90)) || ((97 <=? n) && (n <=? 122)))%nat.

Fixpoint all_chars (p : ascii -> bool) (s : string) : bool :=
  match s with
  | EmptyString => true
  | String c rest => p c && all_chars p rest
  end.

Definition last_char (s : string) : option ascii :=
  String.get (String.length s - 1) s.

(** botocore's check of a region name: a host label, at most 63 letters,
    digits and hyphens, no hyphen at either end, not digits only. *)
Definition valid_region (region : string) : bool :=
  (String.length region <=? 63)%nat
  && all_chars (fun c => is_alnum c || (c =? "-")%char) region
  && negb (String.prefix "-" region)
  && negb (match last_char region with
           | Some c => (c =? "-")%char
           | None => false
           end)
  && negb ((0 <? String.length region)%nat && all_chars is_digit region).

Definition s3_client (region : option string) : client_result :=
  match region with
  | None => ClientBuilt
  | Some name =>
      if valid_region name then ClientBuilt
      else
        ClientRefused "InvalidRegionError"
          ("Provided region_name '" ++ name
           ++ "' doesn't match a supported format.")
  end.

(** A pyplot that draws everything except a temperature that is an
    object, which [float()] refuses inside [plt.plot]. *)
Definition pyplot (h : trace) (call : plt_call) : option (string * string) :=
  match call with
  | PltPlot _ ys _ =>
      if existsb (fun y => match y with JObj _ => true | _ => false end) ys
      then Some ("TypeError",
                 "float() argument must be a string or a real number, not 'dict'")
      else None
  | _ => None
  end.

(** The environment of a run: [server] answers the GET requests, the
    bucket names in [existing] are there at the start, [may_create] says
    whether bucket creation is allowed. *)
Definition make (server : string -> params -> http_result)
    (existing : list string) (may_create : bool) : env :=
  {| getenv := variables;
     requests_get := fun _ => server;
     head_bucket := s3_head existing may_create;
     create_bucket := s3_create may_create;
     put_object := s3_put existing may_create;
     datetime_now := fun _ => noon;
     json_dumps := dumps;
     json_loads := loads;
     boto3_client := s3_client;
     matplotlib := pyplot |}.

(** A server that answers every request with the given status and body. *)
Definition answering (status : nat) (phrase : string) (body : json)
  : string -> params -> http_result :=
  fun base_url _ =>
    HttpResponse {| status_code := status; reason := phrase;
                    url := base_url; text := dumps body |}.

(** A server that answers every request with 200 and the given text. *)
Definition sending (body : string) : string -> params -> http_result :=
  fun base_url _ =>
    HttpResponse {| status_code := 200; reason := "OK";
                    url := base_url; text := body |}.

(** The forecast of the two-entry example. *)
Definition forecast_sample : json :=
  JObj [("list",
         JArr [JObj [("dt_txt", JStr "2024-01-01 00:00:00");
                     ("main", JObj [("temp", JFloat 32.0)])];
               JObj [("dt_txt", JStr "2024-01-01 03:00:00");
                     ("main", JObj [("temp", JFloat 35.5)])]])].

Definition current_sample : json :=
  JObj [("name", JStr "Seattle"); ("main", JObj [("temp", JFloat 41.5)])].

(** Current conditions from the weather endpoint, the forecast from the
    forecast endpoint. *)
Definition weather_server : string -> params -> http_result :=
  fun base_url _ =>
    HttpResponse
      {| status_code := 200; reason := "OK"; url := base_url;
         text := if base_url =? "http://api.openweathermap.org/data/2.5/weather"
                 then dumps current_sample else dumps forecast_sample |}.

(** The forecast endpoint is down, the current conditions are served. *)
Definition forecast_down : string -> params -> http_result :=
  fun base_url _ =>
    if base_url =? "http://api.openweathermap.org/data/2.5/weather"
    then HttpResponse {| status_code := 200; reason := "OK"; url := base_url;
                         text := dumps current_sample |}
    else HttpResponse {| status_code := 500; reason := "Internal Server Error";
                         url := base_url; text := EmptyString |}.

(** The same outside, seen by a process that has none of the variables
    set. *)
Definition unconfigured (E : env) : env :=
  {| getenv := fun _ => None;
     requests_get := requests_get E;
     head_bucket := head_bucket E;
     create_bucket := create_bucket E;
     put_object := put_object E;
     datetime_now := datetime_now E;
     json_dumps := json_dumps E;
     json_loads := json_loads E;
     boto3_client := boto3_client E;
     matplotlib := matplotlib E |}.

(** The same outside, seen by a process with AWS_REGION set to
    [region]. *)
Definition in_region (region : string) (E : env) : env :=
  {| getenv := fun name =>
       if name =? "AWS_REGION" then Some region else getenv E name;
     requests_get := requests_get E;
     head_bucket := head_bucket E;
     create_bucket := create_bucket E;
     put_object := put_object E;
     datetime_now := datetime_now E;
     json_dumps := json_dumps E;
     json_loads := json_loads E;
     boto3_client := boto3_client E;
     matplotlib := matplotlib E |}.

(** The same outside, but the bucket belongs to somebody else: the probe
    is answered 403. *)
Definition forbidding (E : env) : env :=
  {| getenv := getenv E;
     requests_get := requests_get E;
     head_bucket := fun _ _ =>
       S3ClientError "403" "An error occurred (403) when calling the HeadBucket operation: Forbidden";
     create_bucket := create_bucket E;
     put_object := put_object E;
     datetime_now := datetime_now E;
     json_dumps := json_dumps E;
     json_loads := json_loads E;
     boto3_client := boto3_client E;
     matplotlib := matplotlib E |}.

Definition start : world := {| heap := []; events := [] |}.

End Demo.

(** * Properties *)

(** One step of symbolic execution: the monad's plumbing unfolded. *)
Ltac step :=
  cbv beta iota delta [bind ret raise lift try_except deref store alloc emit
                       print get_events].

(** ** Digits and the timestamp format *)

Lemma is_digit_digit (n : nat) : is_digit (digit n) = true.
Proof.
  unfold is_digit, digit.
  pose proof (Nat.mod_upper_bound n 10 ltac:(lia)) as Hlt.
  rewrite nat_ascii_embedding by lia.
  apply andb_true_intro; split; apply Nat.leb_le; lia.
Qed.

Lemma strftime_matches (dt : datetime) :
  fullmatch stamp_pattern (strftime dt) = true.
Proof.
  unfold strftime, pad4, pad2, stamp_pattern.
  cbn -[digit is_digit Nat.div].
  rewrite !is_digit_digit. reflexivity.
Qed.

Lemma value_of_digit (n : nat) : nat_of_ascii (digit n) - 48 = n mod 10.
Proof.
  unfold digit.
  pose proof (Nat.mod_upper_bound n 10 ltac:(lia)) as Hlt.
  rewrite nat_ascii_embedding by lia. lia.
Qed.

Lemma number_of_two (n : nat) :
  n < 100 ->
  number_of (String (digit (n / 10)) (String (digit n) EmptyString)) 0 = Some n.
Proof.
  intros Hn. cbn [number_of]. rewrite !is_digit_digit, !value_of_digit.
  f_equal.
  assert (n / 10 < 10) by (apply Nat.Div0.div_lt_upper_bound; lia).
  rewrite (Nat.mod_small (n / 10)) by lia.
  pose proof (Nat.div_mod_eq n 10). lia.
Qed.

Lemma number_of_four (n : nat) :
  n < 100 * 100 ->
  number_of (String (digit (n / 1000))
               (String (digit (n / 100))
                  (String (digit (n / 10)) (String (digit n) EmptyString)))) 0
  = Some n.
Proof.
  intros Hn. cbn [number_of]. rewrite !is_digit_digit, !value_of_digit.
  f_equal.
  assert (E : n / 100 = n / 10 / 10 /\ n / 1000 = n / 10 / 10 / 10).
  { rewrite !Nat.Div0.div_div. split; reflexivity. }
  destruct E as [-> ->].
  assert (n / 10 / 10 / 10 < 10).
  { repeat apply Nat.Div0.div_lt_upper_bound. lia. }
  rewrite (Nat.mod_small (n / 10 / 10 / 10)) by lia.
  pose proof (Nat.div_mod_eq n 10).
  pose proof (Nat.div_mod_eq (n / 10) 10).
  pose proof (Nat.div_mod_eq (n / 10 / 10) 10).
  lia.
Qed.

(** The timestamp says the time it was made from. *)
Lemma read_stamp_strftime (dt : datetime) :
  valid_datetime dt -> read_stamp (strftime dt) = Some dt.
Proof.
  intros (Hy & Hm & Hd & Hh & Hmi & Hs).
  destruct dt as [y m d h mi s]. cbn [year month day hour minute second] in *.
  unfold read_stamp, strftime, pad4, pad2.
  cbn [year month day hour minute second].
  cbn -[digit Nat.div Nat.modulo number_of is_digit].
  rewrite number_of_four by lia.
  rewrite !number_of_two by lia.
  reflexivity.
Qed.

(** ** Dictionaries *)

Lemma dict_get_set_eq (fields : list (string * json)) (k : string) (v : json) :
  dict_get (dict_set fields k v) k = Some v.
Proof.
  induction fields as [|[k' v'] rest IH]; simpl.
  - now rewrite String.eqb_refl.
  - destruct (k' =? k) eqn:Hk; simpl; now rewrite Hk.
Qed.

Lemma dict_get_set_ne (fields : list (string * json)) (k k' : string) (v : json) :
  k' <> k -> dict_get (dict_set fields k v) k' = dict_get fields k'.
Proof.
  intros Hne.
  induction fields as [|[k0 v0] rest IH]; simpl.
  - destruct (k =? k') eqn:Hk; [apply String.eqb_eq in Hk; congruence | reflexivity].
  - destruct (k0 =? k) eqn:Hk; simpl.
    + apply String.eqb_eq in Hk; subst k0.
      destruct (k =? k') eqn:Hk'; [apply String.eqb_eq in Hk'; congruence | reflexivity].
    + destruct (k0 =? k'); [reflexivity | exact IH].
Qed.

(** The keys stay where they were; a new key goes to the end. *)
Lemma dict_set_keys (fields : list (string * json)) (k : string) (v : json) :
  map fst (dict_set fields k v)
  = match dict_get fields k with
    | Some _ => map fst fields
    | None => map fst fields ++ [k]
    end.
Proof.
  induction fields as [|[k' v'] rest IH]; simpl; [reflexivity|].
  destruct (k' =? k) eqn:Hk; simpl; [reflexivity|].
  rewrite IH. now destruct (dict_get rest k).
Qed.

Lemma dict_set_truthy (fields : list (string * json)) (k : string) (v : json) :
  truthy (JObj (dict_set fields k v)) = true.
Proof.
  destruct fields as [|[k' v'] rest]; simpl; [reflexivity|].
  now destruct (k' =? k).
Qed.

(** ** Running the persistence writer *)

Section Save.

Context (E : env) (self : WeatherDashboard).

(** A falsy payload: the guard returns at once and the world is as it
    was. *)
Lemma save_to_s3_falsy (weather_data : value) (file_name : string) (w : world) :
  py_bool weather_data w = (Ret false, w) ->
  save_to_s3 E self weather_data file_name w = (Ret false, w).
Proof.
  intros H. unfold save_to_s3, bind. now rewrite H.
Qed.

(** A non-empty object: stamped in place, serialized, uploaded once; the
    result follows the answer of the service. *)
Lemma save_to_s3_object (l : loc) (fields : list (string * json))
    (file_name : string) (w : world) :
  heap w !! l = Some (JObj fields) ->
  fields <> [] ->
  save_to_s3 E self (VRef l) file_name w
  = let doc := stamped E w fields in
    let hp := <[l := doc]> (heap w) in
    match put_object E (events w) (bucket_name self) (key_of file_name)
                     (json_dumps E doc) "application/json" with
    | S3Ok =>
        (Ret true,
         {| heap := hp;
            events := events w ++
              [upload E self file_name doc;
               EPrint ("Successfully saved data for " ++ file_name ++ " to S3")] |})
    | S3ClientError code msg =>
        (Ret false,
         {| heap := hp;
            events := events w ++
              [upload E self file_name doc; EPrint ("Error saving to S3: " ++ msg)] |})
    | S3BotoCoreError msg =>
        (Raise (BotoCoreError msg),
         {| heap := hp; events := events w ++ [upload E self file_name doc] |})
    end.
Proof.
  intros Hl Hne.
  assert (Hlt : l < length (heap w)) by (eapply lookup_lt_Some; eauto).
  assert (Ht : truthy (JObj fields) = true) by (destruct fields; simpl; congruence).
  unfold save_to_s3, py_bool, now, setitem, document, s3_call. step.
  rewrite Hl. step. rewrite Ht. cbn [negb heap events]. rewrite Hl.
  cbn [heap events]. rewrite list_lookup_insert_eq by exact Hlt. step.
  unfold stamped, upload, key_of. cbn [heap events].
  destruct (put_object E (events w) (bucket_name self) _ _ _) as [|code msg|msg];
    cbn [is_ClientError heap events str_of_exn];
    rewrite <- ?app_assoc; reflexivity.
Qed.

(** A payload that counts as true but is no object: setting the
    timestamp is a [TypeError], which the handler does not catch. *)
Lemma save_to_s3_not_object (l : loc) (j : json) (file_name : string)
    (w : world) :
  heap w !! l = Some j ->
  truthy j = true ->
  (forall fields, j <> JObj fields) ->
  exists msg, save_to_s3 E self (VRef l) file_name w = (Raise (TypeError msg), w).
Proof.
  intros Hl Ht Hno.
  unfold save_to_s3, py_bool, now, setitem. step.
  rewrite Hl. step. rewrite Ht. cbn [negb heap events]. rewrite Hl.
  destruct j; try (eexists; reflexivity).
  exfalso. eapply Hno. reflexivity.
Qed.

End Save.

(** ** Running the weather client *)

Section Fetch.

Context (E : env) (self : WeatherDashboard).

Lemma raise_for_status_run (r : response) (w : world) :
  raise_for_status r w
  = if is_http_error r
    then (Raise (RequestException
                   (str_of_nat (status_code r)
                    ++ (if (status_code r <? 500)%nat
                        then " Client Error: " else " Server Error: ")
                    ++ reason r ++ " for url: " ++ url r)), w)
    else (Ret tt, w).
Proof.
  unfold raise_for_status, is_http_error.
  destruct (400 <=? status_code r)%nat eqn:H4;
    destruct (status_code r <? 500)%nat eqn:H5;
    destruct (500 <=? status_code r)%nat eqn:H5';
    destruct (status_code r <? 600)%nat eqn:H6;
    try reflexivity;
    repeat match goal with
           | H : (_ <=? _)%nat = true |- _ => apply Nat.leb_le in H
           | H : (_ <=? _)%nat = false |- _ => apply Nat.leb_gt in H
           | H : (_ <? _)%nat = true |- _ => apply Nat.ltb_lt in H
           | H : (_ <? _)%nat = false |- _ => apply Nat.ltb_ge in H
           end; lia.
Qed.

Ltac run_fetch :=
  intros city w;
  unfold get, response_json; step; cbn [heap events];
  fold (query_of self city);
  destruct (requests_get E (events w) _ (query_of self city)) as [r|msg];
  [ rewrite raise_for_status_run;
    destruct (is_http_error r);
    [ cbn [is_RequestException str_of_exn heap events];
      do 3 eexists; split; [reflexivity|]; cbn [heap events];
      rewrite <- app_assoc; split; [reflexivity|];
      repeat split; eexists; reflexivity
    | destruct (json_loads E (text r)) as [[]|msg|cls msg];
      cbn [is_RequestException str_of_exn heap events];
      do 3 eexists; (split; [reflexivity|]); cbn [heap events];
      rewrite <- ?app_assoc; repeat split; reflexivity ]
  | cbn [is_RequestException str_of_exn heap events];
    do 3 eexists; split; [reflexivity|]; cbn [heap events];
    rewrite <- app_assoc; repeat split; reflexivity ].

Lemma fetch_weather_contract :
  fetch_contract E self (fetch_weather E self)
    "http://api.openweathermap.org/data/2.5/weather"
    "Error fetching weather data: ".
Proof. unfold fetch_contract, fetch_weather. run_fetch. Qed.

Lemma fetch_forecast_contract :
  fetch_contract E self (fetch_forecast E self)
    "http://api.openweathermap.org/data/2.5/forecast"
    "Error fetching weather forecast: ".
Proof. unfold fetch_contract, fetch_forecast. run_fetch. Qed.

(** C7, as the code has it.  [fetch_weather] and [fetch_forecast] each
    make one GET with the query {q: city, appid: api key, units:
    "imperial"}.  They return the parsed body when the request goes
    through with a status that [raise_for_status] accepts (every status
    outside 400..599, the 2xx ones among them) and the body is JSON; on a
    transport failure, a 4xx or 5xx status, or a body that is not JSON,
    they print one line and return [None]; an exception of the decoder
    that is not a decode error (RecursionError, ValueError) is not caught
    and reaches the caller, with nothing printed. *)
Theorem fetch_operations_contract :
  fetch_contract E self (fetch_weather E self)
    "http://api.openweathermap.org/data/2.5/weather"
    "Error fetching weather data: "
  /\ fetch_contract E self (fetch_forecast E self)
       "http://api.openweathermap.org/data/2.5/forecast"
       "Error fetching weather forecast: ".
Proof.
  split.
  - unfold fetch_contract, fetch_weather. run_fetch.
  - unfold fetch_contract, fetch_forecast. run_fetch.
Qed.

End Fetch.

(** A fetch adds objects to the heap and calls to the trace, none of them
    an upload or a chart; what it returns, if it returns, is [None] or a
    live reference. *)
Lemma fetch_contract_shape (E : env) (self : WeatherDashboard)
    (fetch : string -> M value) (base_url prefix : string) :
  fetch_contract E self fetch base_url prefix ->
  forall (city : string) (w : world) (r : result value) (w' : world),
    fetch city w = (r, w') ->
    exists (log : list event) (objs : list json),
      heap w' = heap w ++ objs
      /\ events w' = events w ++ log
      /\ quiet log
      /\ forall v, r = Ret v -> is_Some (contents w' v).
Proof.
  intros Hc city w r w' Hrun.
  destruct (Hc city w) as (r1 & w1 & log & Hf & Hev & Hcase).
  rewrite Hf in Hrun. injection Hrun as <- <-.
  destruct (requests_get E (events w) base_url (query_of self city)) as [resp|msg].
  - destruct (is_http_error resp).
    + destruct Hcase as (-> & Hh & msg & ->).
      exists (EGet base_url (query_of self city) :: [EPrint (prefix ++ msg)]), [].
      rewrite app_nil_r. repeat split; cbn; eauto.
      intros v [= <-]. cbn. eauto.
    + destruct (json_loads E (text resp)) as [j|msg|cls msg].
      * destruct j;
          try (destruct Hcase as (-> & -> & Hh);
               eexists _, [_]; repeat split; eauto;
               intros v [= <-];
               cbn; rewrite Hh; rewrite lookup_app_r by lia;
               rewrite Nat.sub_diag; cbn; eauto).
        destruct Hcase as (-> & -> & Hh).
        exists [EGet base_url (query_of self city)], [].
        rewrite app_nil_r. repeat split; cbn; eauto.
        intros v [= <-]. cbn. eauto.
      * destruct Hcase as (-> & -> & Hh).
        exists (EGet base_url (query_of self city) :: [EPrint (prefix ++ msg)]), [].
        rewrite app_nil_r. repeat split; cbn; eauto.
        intros v [= <-]. cbn. eauto.
      * destruct Hcase as (-> & -> & Hh).
        exists [EGet base_url (query_of self city)], [].
        rewrite app_nil_r. repeat split; cbn; eauto.
        intros v [=].
  - destruct Hcase as (-> & -> & Hh).
    exists (EGet base_url (query_of self city) :: [EPrint (prefix ++ msg)]), [].
    rewrite app_nil_r. repeat split; cbn; eauto.
    intros v [= <-]. cbn. eauto.
Qed.

(** ** Running the orchestrator *)

Lemma py_bool_contents (w : world) (v : value) (j : json) :
  contents w v = Some j -> py_bool v w = (Ret (truthy j), w).
Proof.
  destruct v as [|l]; cbn.
  - intros [= <-]. reflexivity.
  - intros Hl. step. now rewrite Hl.
Qed.

Lemma contents_grows (w w' : world) (v : value) (objs : list json) :
  heap w' = heap w ++ objs ->
  is_Some (contents w v) ->
  contents w' v = contents w v.
Proof.
  intros Hh [j Hj]. destruct v as [|l]; cbn in *; [reflexivity|].
  rewrite Hh. apply lookup_app_l. eapply lookup_lt_Some; eauto.
Qed.

Lemma last_two {A} (l : list A) (a b : A) : last (l ++ [a; b]) = Some b.
Proof. change (l ++ [a; b]) with (l ++ [a] ++ [b]). rewrite app_assoc. apply last_snoc. Qed.

Section Orchestrator.

Context (E : env) (self : WeatherDashboard).

(** When the test [weather_data and forecast_data] fails, the loop body
    prints the failure line and is done. *)
Lemma main_body_skips (city : string) (w w1 w2 : world) (wd fd : value)
    (jw : json) :
  fetch_weather E self city
    (after w [EPrint (String "010" ("Fetching weather for " ++ city ++ "..."))])
  = (Ret wd, w1) ->
  fetch_forecast E self city w1 = (Ret fd, w2) ->
  contents w2 wd = Some jw ->
  (truthy jw = false
   \/ exists jf, contents w2 fd = Some jf /\ truthy jf = false) ->
  main_body E self city w
  = (Ret tt, after w2 [EPrint ("Failed to fetch weather data for " ++ city)]).
Proof.
  intros Hw Hf Hjw Hfalsy.
  unfold main_body. unfold bind at 1. unfold print, emit at 1.
  unfold after in Hw. unfold bind at 1. rewrite Hw.
  unfold bind at 1. rewrite Hf.
  unfold bind at 1. unfold bind at 1.
  rewrite (py_bool_contents _ _ _ Hjw).
  destruct Hfalsy as [Hfw | (jf & Hjf & Hff)].
  - rewrite Hfw. reflexivity.
  - destruct (truthy jw); [|reflexivity].
    rewrite (py_bool_contents _ _ _ Hjf), Hff. reflexivity.
Qed.

End Orchestrator.

(** ** The orchestrator when a fetch fails *)

(** C2. For a city for which [fetch_weather] or [fetch_forecast] returns
    [None], the loop body makes no upload and no chart call, ends on the
    console line "Failed to fetch weather data for {city}", returns
    normally, and the loop goes on with the cities that follow. *)
Theorem failed_fetch_skips_city (E : env) (self : WeatherDashboard)
    (city : string) (w w1 w2 : world) (wd fd : value) :
  fetch_weather E self city
    (after w [EPrint (String "010" ("Fetching weather for " ++ city ++ "..."))])
  = (Ret wd, w1) ->
  fetch_forecast E self city w1 = (Ret fd, w2) ->
  wd = VNone \/ fd = VNone ->
  exists (added : list event) (w3 : world),
    main_body E self city w = (Ret tt, w3)
    /\ events w3 = events w ++ added
    /\ storage_writes added = []
    /\ plots added = []
    /\ last added = Some (EPrint ("Failed to fetch weather data for " ++ city))
    /\ forall rest : list string,
         for_each (city :: rest) (main_body E self) w
         = for_each rest (main_body E self) w3.
Proof.
  intros Hw Hf Hnone.
  destruct (fetch_contract_shape _ _ _ _ _ (fetch_weather_contract E self)
              _ _ _ _ Hw) as (log1 & objs1 & Hh1 & He1 & Hq1 & Hc1).
  destruct (fetch_contract_shape _ _ _ _ _ (fetch_forecast_contract E self)
              _ _ _ _ Hf) as (log2 & objs2 & Hh2 & He2 & Hq2 & Hc2).
  specialize (Hc1 _ eq_refl). specialize (Hc2 _ eq_refl).
  assert (Hwd : exists jw, contents w2 wd = Some jw).
  { rewrite (contents_grows w1 w2 wd objs2 Hh2 Hc1). exact Hc1. }
  destruct Hwd as [jw Hjw]. destruct Hc2 as [jf Hjf].
  assert (Hrun : main_body E self city w
                 = (Ret tt, after w2 [EPrint ("Failed to fetch weather data for "
                                              ++ city)])).
  { eapply main_body_skips; eauto.
    destruct Hnone as [-> | ->].
    - left. cbn in Hjw. now injection Hjw as <-.
    - right. exists jf. split; [exact Hjf|]. cbn in Hjf. now injection Hjf as <-. }
  exists ([EPrint (String "010" ("Fetching weather for " ++ city ++ "..."))]
          ++ log1 ++ log2
          ++ [EPrint ("Failed to fetch weather data for " ++ city)]).
  eexists. split; [exact Hrun|].
  destruct Hq1 as (Hp1 & _ & Hl1). destruct Hq2 as (Hp2 & _ & Hl2).
  repeat split.
  - cbn [after events]. rewrite He2, He1. cbn [after events].
    now rewrite <- !app_assoc.
  - unfold storage_writes in *. cbn [List.filter is_put app].
    now rewrite !List.filter_app, Hp1, Hp2.
  - unfold plots in *. cbn [List.filter is_plt app].
    now rewrite !List.filter_app, Hl1, Hl2.
  - rewrite !app_assoc. apply last_snoc.
  - intros rest. cbn [for_each]. unfold bind at 1. now rewrite Hrun.
Qed.

(** Seattle, with the forecast endpoint down and the current conditions
    served: nothing is uploaded or drawn. *)
Lemma failed_fetch_skips_city_witness :
  let E := Demo.make Demo.forecast_down ["weather-bucket"] true in
  exists (added : list event) (w3 : world),
    main_body E (attributes E) "Seattle" Demo.start = (Ret tt, w3)
    /\ events w3 = events Demo.start ++ added
    /\ storage_writes added = []
    /\ plots added = []
    /\ last added = Some (EPrint ("Failed to fetch weather data for " ++ "Seattle"))
    /\ forall rest : list string,
         for_each ("Seattle" :: rest) (main_body E (attributes E)) Demo.start
         = for_each rest (main_body E (attributes E)) w3.
Proof.
  intros E.
  pose (w0 := after Demo.start
                [EPrint (String "010" ("Fetching weather for " ++ "Seattle" ++ "..."))]).
  pose (w1 := snd (fetch_weather E (attributes E) "Seattle" w0)).
  pose (w2 := snd (fetch_forecast E (attributes E) "Seattle" w1)).
  apply (failed_fetch_skips_city E (attributes E) "Seattle" Demo.start w1 w2
           (VRef 0) VNone).
  - vm_compute. reflexivity.
  - vm_compute. reflexivity.
  - right; reflexivity.
Defined.

(** ** Falsy payloads *)

(** C10. [save_to_s3] on a payload that Python takes for false ([None],
    an empty object, an empty list, zero, ...) returns [False] and leaves
    the world as it was: no timestamp is set and storage is not called.
    The loop body of [main] takes such a result of either fetch, the empty
    object included, for a failed fetch. *)
Theorem falsy_payload_is_a_failure (E : env) (self : WeatherDashboard) :
  (forall (v : value) (j : json) (file_name : string) (w : world),
      contents w v = Some j ->
      truthy j = false ->
      save_to_s3 E self v file_name w = (Ret false, w))
  /\ (forall (city : string) (w w1 w2 : world) (wd fd : value) (jw jf : json),
        fetch_weather E self city
          (after w [EPrint (String "010"
                              ("Fetching weather for " ++ city ++ "..."))])
        = (Ret wd, w1) ->
        fetch_forecast E self city w1 = (Ret fd, w2) ->
        contents w2 wd = Some jw ->
        contents w2 fd = Some jf ->
        truthy jw = false \/ truthy jf = false ->
        main_body E self city w
        = (Ret tt,
           after w2 [EPrint ("Failed to fetch weather data for " ++ city)])).
Proof.
  split.
  - intros v j file_name w Hj Hf.
    apply save_to_s3_falsy. rewrite (py_bool_contents _ _ _ Hj). now rewrite Hf.
  - intros city w w1 w2 wd fd jw jf Hw Hfc Hjw Hjf Hfalsy.
    eapply main_body_skips; eauto.
    destruct Hfalsy as [H | H]; [now left | right; eauto].
Qed.

(** A server that answers 200 with the empty object: saving such a payload
    does nothing, and the loop body reports a failed fetch for Seattle. *)
Lemma falsy_payload_is_a_failure_witness :
  let E := Demo.make (Demo.answering 200 "OK" (JObj [])) ["weather-bucket"] true in
  let w := {| heap := [JObj []]; events := [] |} in
  save_to_s3 E (attributes E) (VRef 0) "Seattle_current" w = (Ret false, w)
  /\ main_body E (attributes E) "Seattle" Demo.start
     = (Ret tt,
        {| heap := [JObj []; JObj []];
           events :=
             [EPrint (String "010" "Fetching weather for Seattle...");
              EGet "http://api.openweathermap.org/data/2.5/weather"
                   (query_of (attributes E) "Seattle");
              EGet "http://api.openweathermap.org/data/2.5/forecast"
                   (query_of (attributes E) "Seattle");
              EPrint "Failed to fetch weather data for Seattle"] |}).
Proof.
  intros E w. split.
  - apply (proj1 (falsy_payload_is_a_failure E (attributes E)) (VRef 0) (JObj []));
      reflexivity.
  - pose (w0 := after Demo.start
                  [EPrint (String "010" ("Fetching weather for " ++ "Seattle" ++ "..."))]).
    pose (w1 := snd (fetch_weather E (attributes E) "Seattle" w0)).
    pose (w2 := snd (fetch_forecast E (attributes E) "Seattle" w1)).
    rewrite (proj2 (falsy_payload_is_a_failure E (attributes E)) "Seattle" Demo.start
               w1 w2 (VRef 0) (VRef 1) (JObj []) (JObj [])).
    + vm_compute. reflexivity.
    + vm_compute. reflexivity.
    + vm_compute. reflexivity.
    + vm_compute. reflexivity.
    + vm_compute. reflexivity.
    + left; reflexivity.
Defined.

(** ** The persistence writer *)

(** C4, as the code has it.  On a payload that is absent (or false in any
    other way) [save_to_s3] returns [False] at once and the world is as
    before.  On a non-empty object it makes one upload and returns [True]
    exactly when the service accepts it; a [ClientError] of the service
    gives [False] after a console line; an error of the client that is no
    [ClientError] reaches the caller. *)
Theorem save_to_s3_outcome (E : env) (self : WeatherDashboard)
    (v : value) (j : json) (file_name : string) (w : world) :
  contents w v = Some j ->
  (truthy j = false -> save_to_s3 E self v file_name w = (Ret false, w))
  /\ (forall fields : list (string * json),
        j = JObj fields ->
        fields <> [] ->
        let doc := stamped E w fields in
        let answer := put_object E (events w) (bucket_name self)
                        (key_of file_name) (json_dumps E doc)
                        "application/json" in
        exists w' : world,
          save_to_s3 E self v file_name w
          = (match answer with
             | S3Ok => Ret true
             | S3ClientError _ _ => Ret false
             | S3BotoCoreError msg => Raise (BotoCoreError msg)
             end, w')
          /\ storage_writes (events w')
             = storage_writes (events w) ++ [upload E self file_name doc]
          /\ (fst (save_to_s3 E self v file_name w) = Ret true
              <-> answer = S3Ok)
          /\ (forall code msg,
                answer = S3ClientError code msg ->
                last (events w')
                = Some (EPrint ("Error saving to S3: " ++ msg)))).
Proof.
  intros Hj. split.
  - intros Hf. apply save_to_s3_falsy.
    rewrite (py_bool_contents _ _ _ Hj). now rewrite Hf.
  - intros fields -> Hne doc answer.
    destruct v as [|l]; [discriminate|]. cbn in Hj.
    rewrite (save_to_s3_object E self l fields file_name w Hj Hne).
    fold doc. cbv zeta. fold answer.
    destruct answer as [|code msg|msg] eqn:Ha; eexists;
      (split; [reflexivity|]); cbn [events fst];
      unfold storage_writes; rewrite List.filter_app; cbn;
      repeat split; try congruence; try discriminate.
    intros code' msg' [= _ <-]. apply last_two.
Qed.

(** An absent payload, and the current conditions saved twice: into an
    existing bucket, and with no bucket there and creation refused. *)
Lemma save_to_s3_outcome_witness :
  let E := Demo.make Demo.weather_server ["weather-bucket"] true in
  let E' := Demo.make Demo.weather_server [] false in
  let w := {| heap := [Demo.current_sample]; events := [] |} in
  save_to_s3 E (attributes E) VNone "Seattle_current" w = (Ret false, w)
  /\ fst (save_to_s3 E (attributes E) (VRef 0) "Seattle_current" w) = Ret true
  /\ fst (save_to_s3 E' (attributes E') (VRef 0) "Seattle_current" w) = Ret false.
Proof.
  intros E E' w. split; [|split].
  - apply (proj1 (save_to_s3_outcome E (attributes E) VNone JNull "Seattle_current" w
                    eq_refl)).
    reflexivity.
  - destruct (proj2 (save_to_s3_outcome E (attributes E) (VRef 0) Demo.current_sample
                       "Seattle_current" w eq_refl)
                _ eq_refl ltac:(discriminate)) as (w' & Hrun & _).
    rewrite Hrun. reflexivity.
  - destruct (proj2 (save_to_s3_outcome E' (attributes E') (VRef 0) Demo.current_sample
                       "Seattle_current" w eq_refl)
                _ eq_refl ltac:(discriminate)) as (w' & Hrun & _).
    rewrite Hrun. reflexivity.
Defined.

(** C4 as stated fails on two inputs.  A payload that is a JSON array (a
    value [response.json()] can return) is not absent, and stamping it is
    a [TypeError] the caller gets.  With no bucket name configured the
    client refuses the call with a parameter validation error, which is no
    [ClientError]: the caller gets that too. *)
Lemma save_to_s3_raises :
  let E := Demo.make Demo.weather_server ["weather-bucket"] true in
  let U := Demo.unconfigured E in
  let w := {| heap := [JArr [JInt 1]]; events := [] |} in
  let w' := {| heap := [Demo.current_sample]; events := [] |} in
  save_to_s3 E (attributes E) (VRef 0) "Seattle_current" w
  = (Raise (TypeError "list indices must be integers or slices, not str"), w)
  /\ fst (save_to_s3 U (attributes U) (VRef 0) "Seattle_current" w')
     = Raise (BotoCoreError "Parameter validation failed").
Proof. split; vm_compute; reflexivity. Qed.

(** C9, as the code has it.  [save_to_s3] sets the timestamp on the
    caller's object itself, before the upload: after a call on a non-empty
    object, whatever came of the upload (success, a [ClientError], or an
    exception that reaches the caller), the object holds the timestamp
    under its key, every other field as before, and no other object of the
    heap has changed. *)
Theorem save_to_s3_stamps_in_place (E : env) (self : WeatherDashboard)
    (l : loc) (fields : list (string * json)) (file_name : string)
    (w w' : world) (r : result bool) :
  heap w !! l = Some (JObj fields) ->
  fields <> [] ->
  save_to_s3 E self (VRef l) file_name w = (r, w') ->
  exists fields' : list (string * json),
    heap w' !! l = Some (JObj fields')
    /\ dict_get fields' "timestamp"
       = Some (JStr (strftime (datetime_now E (events w))))
    /\ (forall k, k <> "timestamp" -> dict_get fields' k = dict_get fields k)
    /\ (forall l', l' <> l -> heap w' !! l' = heap w !! l').
Proof.
  intros Hl Hne Hrun.
  rewrite (save_to_s3_object E self l fields file_name w Hl Hne) in Hrun.
  cbv zeta in Hrun.
  assert (Hlt : l < length (heap w)) by (eapply lookup_lt_Some; eauto).
  assert (Hh : heap w' = <[l := stamped E w fields]> (heap w)).
  { destruct (put_object E _ _ _ _ _); injection Hrun as _ <-; reflexivity. }
  exists (dict_set fields "timestamp"
                   (JStr (strftime (datetime_now E (events w))))).
  rewrite Hh. repeat split.
  - now apply list_lookup_insert_eq.
  - apply dict_get_set_eq.
  - intros k Hk. now apply dict_get_set_ne.
  - intros l' Hl'. apply list_lookup_insert_ne. congruence.
Qed.

(** The current conditions saved with no bucket there: the upload fails,
    the caller's object has the timestamp all the same. *)
Lemma save_to_s3_stamps_in_place_witness :
  let E := Demo.make Demo.weather_server [] false in
  let w := {| heap := [Demo.current_sample]; events := [] |} in
  fst (save_to_s3 E (attributes E) (VRef 0) "Seattle_current" w) = Ret false
  /\ exists fields' : list (string * json),
       heap (snd (save_to_s3 E (attributes E) (VRef 0) "Seattle_current" w)) !! 0
       = Some (JObj fields')
       /\ dict_get fields' "timestamp" = Some (JStr "20240105-123007")
       /\ (forall k, k <> "timestamp" ->
             dict_get fields' k
             = dict_get [("name", JStr "Seattle");
                         ("main", JObj [("temp", JFloat 41.5)])] k)
       /\ (forall l', l' <> 0 ->
             heap (snd (save_to_s3 E (attributes E) (VRef 0) "Seattle_current" w)) !! l'
             = heap w !! l').
Proof.
  intros E w. split; [vm_compute; reflexivity|].
  exact (save_to_s3_stamps_in_place E (attributes E) 0 _ "Seattle_current" w _ _
           eq_refl ltac:(discriminate) (surjective_pairing _)).
Defined.

(** C9 as stated fails on the empty object: it is not absent, yet the call
    returns before the timestamp is set, and the object stays empty. *)
Lemma save_to_s3_leaves_empty_object :
  let E := Demo.make Demo.weather_server ["weather-bucket"] true in
  let w := {| heap := [JObj []]; events := [] |} in
  contents w (VRef 0) = Some (JObj [])
  /\ save_to_s3 E (attributes E) (VRef 0) "Seattle_current" w = (Ret false, w)
  /\ contents (snd (save_to_s3 E (attributes E) (VRef 0) "Seattle_current" w)) (VRef 0)
     = Some (JObj []).
Proof. repeat split; vm_compute; reflexivity. Qed.

(** C5 as stated fails on a payload that has a field "timestamp" of its
    own: the save succeeds and the stored body has the writer's timestamp
    where the payload had its value, so that field of the original payload
    is not in the stored object. *)
Lemma persisted_body_replaces_a_timestamp_field :
  let E := Demo.make Demo.weather_server ["weather-bucket"] true in
  let payload := [("timestamp", JInt 1704457807); ("name", JStr "Seattle")] in
  let stored := [("timestamp", JStr "20240105-123007"); ("name", JStr "Seattle")] in
  let w := {| heap := [JObj payload]; events := [] |} in
  save_to_s3 E (attributes E) (VRef 0) "Seattle_current" w
  = (Ret true,
     {| heap := [JObj stored];
        events := [EPutObject (Some "weather-bucket")
                              "weather-data/Seattle_current.json"
                              (Demo.dumps (JObj stored)) "application/json";
                   EPrint "Successfully saved data for Seattle_current to S3"] |})
  /\ json_loads E (Demo.dumps (JObj stored)) = Decoded (JObj stored)
  /\ dict_get payload "timestamp" = Some (JInt 1704457807)
  /\ dict_get stored "timestamp" = Some (JStr "20240105-123007").
Proof. repeat split; vm_compute; reflexivity. Qed.

(** C5, as the code has it.  When [save_to_s3] reports success, the
    payload was an object, the call made one upload, and the uploaded
    body, read back by the JSON library, is an object that has every field
    name of the payload, the value of every field other than "timestamp"
    as it was, and under "timestamp" (whatever the payload had there) a
    string of the form [\d{8}-\d{6}] that reads as YYYYMMDD-HHMMSS of the
    time the clock gave. *)
Theorem persisted_body_keeps_fields_and_has_timestamp (E : env)
    (self : WeatherDashboard) (v : value) (j : json) (file_name : string)
    (w w' : world) :
  contents w v = Some j ->
  save_to_s3 E self v file_name w = (Ret true, w') ->
  (forall fields, j = JObj fields -> round_trips E (stamped E w fields)) ->
  valid_datetime (datetime_now E (events w)) ->
  exists (fields fields' : list (string * json)) (body ts : string),
    j = JObj fields
    /\ events w'
       = events w
         ++ [EPutObject (bucket_name self) (key_of file_name) body
                        "application/json";
             EPrint ("Successfully saved data for " ++ file_name ++ " to S3")]
    /\ json_loads E body = Decoded (JObj fields')
    /\ (forall k, In k (map fst fields) -> In k (map fst fields'))
    /\ (forall k, k <> "timestamp" -> dict_get fields' k = dict_get fields k)
    /\ dict_get fields' "timestamp" = Some (JStr ts)
    /\ ts = strftime (datetime_now E (events w))
    /\ fullmatch stamp_pattern ts = true
    /\ read_stamp ts = Some (datetime_now E (events w)).
Proof.
  intros Hj Hrun Hrt Hclock.
  destruct (truthy j) eqn:Ht.
  2:{ rewrite save_to_s3_falsy in Hrun; [discriminate|].
      rewrite (py_bool_contents _ _ _ Hj). now rewrite Ht. }
  destruct v as [|l]; cbn in Hj; [injection Hj as <-; discriminate|].
  assert (Hobj : exists fields, j = JObj fields).
  { destruct j; try (destruct (save_to_s3_not_object E self l _ file_name w Hj Ht
                                 ltac:(discriminate)) as [msg Hr];
                     rewrite Hr in Hrun; discriminate).
    eauto. }
  destruct Hobj as [fields ->].
  assert (Hne : fields <> []) by (destruct fields; [discriminate|discriminate]).
  rewrite (save_to_s3_object E self l fields file_name w Hj Hne) in Hrun.
  cbv zeta in Hrun.
  destruct (put_object E _ _ _ _ _); try discriminate.
  injection Hrun as <-.
  exists fields,
    (dict_set fields "timestamp" (JStr (strftime (datetime_now E (events w))))),
    (json_dumps E (stamped E w fields)),
    (strftime (datetime_now E (events w))).
  repeat split.
  - apply (Hrt fields eq_refl).
  - intros k Hk. rewrite dict_set_keys.
    destruct (dict_get fields "timestamp"); [exact Hk|].
    apply in_or_app. now left.
  - intros k Hk. now apply dict_get_set_ne.
  - apply dict_get_set_eq.
  - apply strftime_matches.
  - now apply read_stamp_strftime.
Qed.

(** The current conditions of the example saved at 12:30:07 on 5 January
    2024 into an existing bucket and read back with the reference codec. *)
Lemma persisted_body_witness :
  let E := Demo.make Demo.weather_server ["weather-bucket"] true in
  let w := {| heap := [Demo.current_sample]; events := [] |} in
  exists (fields' : list (string * json)) (body : string),
    events (snd (save_to_s3 E (attributes E) (VRef 0) "Seattle_current" w))
    = [EPutObject (Some "weather-bucket") "weather-data/Seattle_current.json"
                  body "application/json";
       EPrint "Successfully saved data for Seattle_current to S3"]
    /\ json_loads E body = Decoded (JObj fields')
    /\ dict_get fields' "name" = Some (JStr "Seattle")
    /\ dict_get fields' "main" = Some (JObj [("temp", JFloat 41.5)])
    /\ dict_get fields' "timestamp" = Some (JStr "20240105-123007")
    /\ fullmatch stamp_pattern "20240105-123007" = true
    /\ read_stamp "20240105-123007" = Some Demo.noon.
Proof.
  intros E w.
  destruct (persisted_body_keeps_fields_and_has_timestamp E (attributes E) (VRef 0)
              Demo.current_sample "Seattle_current" w
              (snd (save_to_s3 E (attributes E) (VRef 0) "Seattle_current" w)))
    as (fields & fields' & body & ts & Hj & Hev & Hload & _ & Hvals & Hts & Hstr
        & Hpat & Hread).
  - reflexivity.
  - vm_compute. reflexivity.
  - intros fields [= <-]. vm_compute. reflexivity.
  - vm_compute. repeat split; lia.
  - injection Hj as <-.
    assert (Hlit : ts = "20240105-123007") by (rewrite Hstr; vm_compute; reflexivity).
    rewrite Hlit in Hts, Hpat, Hread.
    exists fields', body.
    split; [exact Hev|]. split; [exact Hload|].
    split; [now rewrite Hvals|]. split; [now rewrite Hvals|].
    split; [exact Hts|]. split; [exact Hpat|exact Hread].
Defined.

(** ** The visualizer *)

Lemma comprehension_Forall2 {A B} (f : A -> result B) (xs : list A)
    (ys : list B) :
  Forall2 (fun x y => f x = Ret y) xs ys -> comprehension f xs = Ret ys.
Proof.
  induction 1 as [|x y xs ys Hxy _ IH]; cbn; [reflexivity|].
  now rewrite Hxy, IH.
Qed.

Lemma after_nothing (w : world) : after w [] = w.
Proof. destruct w. unfold after. cbn. now rewrite app_nil_r. Qed.

Lemma after_after (w : world) (a b : list event) :
  after (after w a) b = after w (a ++ b).
Proof. unfold after. cbn. now rewrite <- app_assoc. Qed.

Lemma plt_run (E : env) (call : plt_call) (w : world) :
  plt E call w
  = match matplotlib E (events w) call with
    | None => (Ret tt, after w [EPlt call])
    | Some (cls, msg) => (Raise (OtherError cls msg), after w [EPlt call])
    end.
Proof.
  unfold plt. step. cbn [events].
  destruct (matplotlib E (events w) call) as [[cls msg]|]; reflexivity.
Qed.

(** A sequence of pyplot calls stops at the first that raises. *)
Lemma plt_calls_run (E : env) (calls : list plt_call) (w : world) :
  exists n : nat,
    n <= length calls
    /\ (calls <> [] -> 1 <= n)
    /\ snd (for_each calls (plt E) w) = after w (take n (map EPlt calls))
    /\ (fst (for_each calls (plt E) w) = Ret tt -> n = length calls)
    /\ ((forall h call, In call calls -> matplotlib E h call = None) ->
        for_each calls (plt E) w = (Ret tt, after w (map EPlt calls))).
Proof.
  revert w. induction calls as [|call calls IH]; intros w.
  - exists 0. cbn [for_each length map take ret fst snd]. unfold ret.
    rewrite after_nothing. cbn [fst snd].
    split; [lia|]. split; [congruence|]. split; [reflexivity|].
    split; [reflexivity|]. intros _. reflexivity.
  - cbn [for_each]. unfold bind. rewrite plt_run.
    destruct (matplotlib E (events w) call) as [[cls msg]|] eqn:Hcall.
    + exists 1. cbn [fst snd length map].
      split; [lia|]. split; [intros _; lia|]. split; [reflexivity|].
      split; [discriminate|].
      intros Hall. rewrite (Hall (events w) call (or_introl eq_refl)) in Hcall.
      discriminate.
    + destruct (IH (after w [EPlt call])) as (n & Hn & _ & Hsnd & Hfst & Hall).
      exists (S n). cbn [length map].
      split; [lia|]. split; [intros _; lia|].
      split; [rewrite Hsnd, after_after; reflexivity|].
      split; [intros Hr; now rewrite (Hfst Hr)|].
      intros Hnone. rewrite Hall, after_after; [reflexivity|].
      intros h c Hc. apply Hnone. now right.
Qed.

(** The nine pyplot calls of [visualize_weather], as a loop. *)
Lemma visualize_weather_draws (E : env) (v : value) (w : world)
    (xs ys : list json) :
  timestamps_of v w = (Ret xs, w) ->
  temps_of v w = (Ret ys, w) ->
  visualize_weather E v w = for_each (pyplot_calls xs ys) (plt E) w.
Proof.
  intros Hts Htemps.
  unfold visualize_weather. unfold bind at 1. rewrite Hts.
  unfold bind at 1. rewrite Htemps.
  unfold pyplot_calls. cbn [for_each]. unfold bind.
  repeat (match goal with
          | |- context [plt E ?c ?w0] =>
              destruct (plt E c w0) as [[[]|?] ?]; [|reflexivity]
          end).
  reflexivity.
Qed.

Lemma comprehension_length {A B} (f : A -> result B) (xs : list A)
    (ys : list B) :
  comprehension f xs = Ret ys -> length ys = length xs.
Proof.
  revert ys. induction xs as [|x xs IH]; cbn; intros ys H.
  - now injection H as <-.
  - destruct (f x) as [y|e]; [|discriminate].
    destruct (comprehension f xs) as [ys'|e]; [|discriminate].
    injection H as <-. cbn. f_equal. now apply IH.
Qed.

(** Both series come from the same list: when both are there they have
    the same length. *)
Lemma series_lengths (v : value) (w w1 w2 : world) (xs ys : list json) :
  timestamps_of v w = (Ret xs, w1) ->
  temps_of v w = (Ret ys, w2) ->
  length xs = length ys.
Proof.
  unfold timestamps_of, temps_of, getitem. destruct v as [|l]; step;
    [discriminate|].
  destruct (heap w !! l) as [j|]; [|discriminate].
  destruct (subscript j "list") as [lst|]; [|discriminate].
  destruct (iterate lst) as [entries|]; [|discriminate].
  destruct (comprehension _ entries) as [xs'|] eqn:Hx; [|discriminate].
  destruct (comprehension _ entries) as [ys'|] eqn:Hy in |- *; [|discriminate].
  intros [= <- _] [= <- _].
  apply comprehension_length in Hx, Hy. congruence.
Qed.

(** Extracting the two series reads the heap and changes nothing. *)
Lemma timestamps_of_world (v : value) (w : world) :
  snd (timestamps_of v w) = w.
Proof.
  unfold timestamps_of, getitem. destruct v as [|l]; step; [reflexivity|].
  destruct (heap w !! l) as [j|]; [|reflexivity].
  destruct (subscript j "list") as [lst|]; [|reflexivity].
  destruct (iterate lst); reflexivity.
Qed.

Lemma temps_of_world (v : value) (w : world) : snd (temps_of v w) = w.
Proof.
  unfold temps_of, getitem. destruct v as [|l]; step; [reflexivity|].
  destruct (heap w !! l) as [j|]; [|reflexivity].
  destruct (subscript j "list") as [lst|]; [|reflexivity].
  destruct (iterate lst); reflexivity.
Qed.

Lemma chart_calls (xs ys : list json) :
  chart xs ys = map EPlt (pyplot_calls xs ys).
Proof. reflexivity. Qed.

Lemma chart_prefix_writes (xs ys : list json) (n : nat) :
  storage_writes (take n (chart xs ys)) = [].
Proof.
  unfold storage_writes, chart.
  do 9 (destruct n as [|n]; [reflexivity|]).
  destruct n; reflexivity.
Qed.

(** The visualizer changes nothing but the trace, and adds to it matplotlib
    calls only: none when it raises before drawing, else the first ones
    of a chart. *)
Lemma visualize_weather_run (E : env) (v : value) (w : world) :
  (exists e : exn, visualize_weather E v w = (Raise e, w))
  \/ (exists (xs ys : list json) (n : nat),
        snd (visualize_weather E v w) = after w (take n (chart xs ys))).
Proof.
  pose proof (timestamps_of_world v w) as Hw1.
  pose proof (temps_of_world v w) as Hw2.
  destruct (timestamps_of v w) as [[xs|e] w1] eqn:Hts; cbn in Hw1; subst w1.
  - destruct (temps_of v w) as [[ys|e] w2] eqn:Htm; cbn in Hw2; subst w2.
    + right. exists xs, ys.
      rewrite (visualize_weather_draws E v w xs ys Hts Htm).
      destruct (plt_calls_run E (pyplot_calls xs ys) w) as (n & _ & _ & Hsnd & _).
      exists n. exact Hsnd.
    + left. exists e. unfold visualize_weather.
      unfold bind at 1. rewrite Hts. unfold bind at 1. now rewrite Htm.
  - left. exists e. unfold visualize_weather.
    unfold bind at 1. now rewrite Hts.
Qed.

(** When both series are there and matplotlib draws them the visualizer
    makes its nine calls. *)
Lemma visualize_weather_plots (E : env) (v : value) (w : world)
    (xs ys : list json) :
  timestamps_of v w = (Ret xs, w) ->
  temps_of v w = (Ret ys, w) ->
  draws E xs ys ->
  visualize_weather E v w = (Ret tt, after w (chart xs ys)).
Proof.
  intros Hts Htm Hdraws.
  rewrite (visualize_weather_draws E v w xs ys Hts Htm).
  destruct (plt_calls_run E (pyplot_calls xs ys) w) as (_ & _ & _ & _ & _ & Hall).
  exact (Hall Hdraws).
Qed.

(** The visualizer and the line that follows it upload nothing. *)
Lemma visualize_then_print_writes_nothing (E : env) (v : value)
    (line : string) (w : world) :
  storage_writes (events (snd ((visualize_weather E v ;; print line) w)))
  = storage_writes (events w).
Proof.
  unfold bind.
  destruct (visualize_weather_run E v w) as [(e & ->) | (xs & ys & n & Hsnd)];
    [reflexivity|].
  destruct (visualize_weather E v w) as [[[]|e] w']; cbn [snd] in Hsnd; subst w'.
  - unfold print, emit, after. cbn [snd heap events].
    unfold storage_writes. rewrite !List.filter_app.
    pose proof (chart_prefix_writes xs ys n) as Hq.
    unfold storage_writes in Hq. rewrite Hq. cbn. now rewrite !app_nil_r.
  - unfold after. cbn [snd heap events].
    unfold storage_writes. rewrite !List.filter_app.
    pose proof (chart_prefix_writes xs ys n) as Hq.
    unfold storage_writes in Hq. rewrite Hq. now rewrite app_nil_r.
Qed.

(** C6. For a forecast whose "list" is an array of entries that each have
    a "dt_txt" and a "main" with a "temp", the visualizer takes the
    [dt_txt] values as x-series and the [main.temp] values as y-series,
    each in the order of the entries, and plots the one against the
    other: the calls it makes are the first ones of the chart of the two
    series, and all nine of them when matplotlib draws the chart.  (The
    entries' values are taken as they are: strings and numbers in
    particular.) *)
Theorem visualize_weather_extracts_series (E : env) (l : loc)
    (fields : list (string * json)) (entries xs ys : list json) (w : world) :
  heap w !! l = Some (JObj fields) ->
  dict_get fields "list" = Some (JArr entries) ->
  Forall2 (fun entry x => subscript entry "dt_txt" = Ret x) entries xs ->
  Forall2 (fun entry y =>
             exists main,
               subscript entry "main" = Ret main
               /\ subscript main "temp" = Ret y) entries ys ->
  timestamps_of (VRef l) w = (Ret xs, w)
  /\ temps_of (VRef l) w = (Ret ys, w)
  /\ (exists n : nat,
        1 <= n <= 9
        /\ snd (visualize_weather E (VRef l) w) = after w (take n (chart xs ys))
        /\ (fst (visualize_weather E (VRef l) w) = Ret tt -> n = 9))
  /\ (draws E xs ys ->
      visualize_weather E (VRef l) w
      = (Ret tt,
         after w [EPlt (PltFigure 10 5);
                  EPlt (PltPlot xs ys "o");
                  EPlt (PltTitle "Temperature Forecast Over Time");
                  EPlt (PltXlabel "Time");
                  EPlt (PltYlabel "Temperature (Â°F)");
                  EPlt (PltGrid true);
                  EPlt (PltXticks 45);
                  EPlt PltTightLayout;
                  EPlt PltShow])).
Proof.
  intros Hl Hlist Hxs Hys.
  assert (Hts : timestamps_of (VRef l) w = (Ret xs, w)).
  { unfold timestamps_of, getitem. step. rewrite Hl. cbn [subscript].
    rewrite Hlist. cbn [iterate]. now rewrite (comprehension_Forall2 _ _ _ Hxs). }
  assert (Htemps : temps_of (VRef l) w = (Ret ys, w)).
  { unfold temps_of, getitem. step. rewrite Hl. cbn [subscript].
    rewrite Hlist. cbn [iterate].
    rewrite (comprehension_Forall2 _ entries ys); [reflexivity|].
    eapply Forall2_impl; [exact Hys|].
    intros entry y (main & -> & Hy). exact Hy. }
  split; [exact Hts|]. split; [exact Htemps|].
  rewrite (visualize_weather_draws E _ w xs ys Hts Htemps).
  destruct (plt_calls_run E (pyplot_calls xs ys) w)
    as (n & Hn & Hpos & Hsnd & Hfst & Hall).
  split.
  - exists n. split; [split; [apply Hpos; discriminate|exact Hn]|].
    split; [exact Hsnd|exact Hfst].
  - intros Hdraws. exact (Hall Hdraws).
Qed.

(** The two-entry forecast of the specification: the x-series is
    ["2024-01-01 00:00:00", "2024-01-01 03:00:00"], the y-series
    [32.0, 35.5], and the reference pyplot draws them. *)
Lemma visualize_weather_two_entries :
  let E := Demo.make Demo.weather_server ["weather-bucket"] true in
  let w := {| heap := [Demo.forecast_sample]; events := [] |} in
  let xs := [JStr "2024-01-01 00:00:00"; JStr "2024-01-01 03:00:00"] in
  let ys := [JFloat 32.0; JFloat 35.5] in
  timestamps_of (VRef 0) w = (Ret xs, w)
  /\ temps_of (VRef 0) w = (Ret ys, w)
  /\ visualize_weather E (VRef 0) w
     = (Ret tt,
        after w [EPlt (PltFigure 10 5);
                 EPlt (PltPlot xs ys "o");
                 EPlt (PltTitle "Temperature Forecast Over Time");
                 EPlt (PltXlabel "Time");
                 EPlt (PltYlabel "Temperature (Â°F)");
                 EPlt (PltGrid true);
                 EPlt (PltXticks 45);
                 EPlt PltTightLayout;
                 EPlt PltShow]).
Proof.
  intros E w xs ys.
  destruct (visualize_weather_extracts_series E 0 _ _ xs ys w eq_refl eq_refl)
    as (Hts & Htemps & _ & Hdraws).
  - repeat constructor.
  - repeat (constructor; [eexists; split; reflexivity|]). constructor.
  - split; [exact Hts|]. split; [exact Htemps|].
    apply Hdraws. intros h call Hin.
    repeat (destruct Hin as [<-|Hin]; [reflexivity|]). destruct Hin.
Defined.

(** C7 as stated fails in two ways.  On a status that is neither 2xx nor
    an error for [raise_for_status]: a 300 with a JSON body comes back as
    a payload, with nothing printed.  And on a 200 whose body the decoder
    refuses with an exception that is not a decode error: the integer
    10^4300, of 4301 digits, makes [int] raise ValueError, which [except
    RequestException] does not catch, so the fetch raises. *)
Lemma fetch_returns_a_300_and_raises_on_a_long_integer :
  let body := JObj [("cod", JInt 300)] in
  let E := Demo.make (Demo.answering 300 "Multiple Choices" body)
                     ["weather-bucket"] true in
  let F := Demo.make (Demo.sending (String "1" (Demo.zeros 4300)))
                     ["weather-bucket"] true in
  fetch_weather E (attributes E) "Seattle" Demo.start
  = (Ret (VRef 0),
     {| heap := [body];
        events := [EGet "http://api.openweathermap.org/data/2.5/weather"
                        (query_of (attributes E) "Seattle")] |})
  /\ fetch_forecast E (attributes E) "Seattle" Demo.start
     = (Ret (VRef 0),
        {| heap := [body];
           events := [EGet "http://api.openweathermap.org/data/2.5/forecast"
                           (query_of (attributes E) "Seattle")] |})
  /\ fetch_weather F (attributes F) "Seattle" Demo.start
     = (Raise (OtherError "ValueError"
                 "Exceeds the limit (4300 digits) for integer string conversion: value has 4301 digits; use sys.set_int_max_str_digits() to increase the limit"),
        {| heap := [];
           events := [EGet "http://api.openweathermap.org/data/2.5/weather"
                           (query_of (attributes F) "Seattle")] |}).
Proof. repeat split; vm_compute; reflexivity. Qed.

(** ** The storage bootstrap *)

Lemma create_bucket_if_not_exists_run (E : env) (self : WeatherDashboard)
    (w : world) :
  create_bucket_if_not_exists E self w
  = let b := bucket_name self in
    let probe := EHeadBucket b in
    let creating := EPrint ("Creating bucket " ++ fmt b) in
    match head_bucket E (events w) b with
    | S3Ok =>
        (Ret tt, after w [probe; EPrint ("Bucket " ++ fmt b ++ " exists")])
    | S3BotoCoreError msg =>
        (Raise (BotoCoreError msg), after w [probe])
    | S3ClientError code msg =>
        if code =? "404" then
          match create_bucket E (events w ++ [probe; creating]) b with
          | S3Ok =>
              (Ret tt,
               after w [probe; creating; ECreateBucket b;
                        EPrint ("Successfully created bucket " ++ fmt b)])
          | S3ClientError _ msg' =>
              (Ret tt,
               after w [probe; creating; ECreateBucket b;
                        EPrint ("Error creating bucket: " ++ msg')])
          | S3BotoCoreError msg' =>
              (Raise (BotoCoreError msg'),
               after w [probe; creating; ECreateBucket b])
          end
        else (Ret tt, after w [probe])
    end.
Proof.
  unfold create_bucket_if_not_exists, s3_call, after. step.
  cbn [heap events].
  destruct (head_bucket E (events w) (bucket_name self)) as [|code msg|msg];
    cbn [is_ClientError error_code heap events];
    rewrite <- ?app_assoc; try reflexivity.
  destruct (code =? "404"); [|reflexivity].
  cbn [heap events]. rewrite <- !app_assoc. cbn [app].
  destruct (create_bucket E _ (bucket_name self)) as [|code' msg'|msg'];
    cbn [is_ClientError str_of_exn heap events];
    rewrite <- ?app_assoc; reflexivity.
Qed.

(** C3, as the code has it.  A [ClientError] of the existence probe other
    than the 404 is caught: the call returns normally and attempts no
    creation.  A [ClientError] of the creation is caught and printed, and
    the call returns normally.  An error of the client that is no
    [ClientError], from the probe or from the creation, reaches the
    caller. *)
Theorem bucket_client_errors_are_not_fatal (E : env) (self : WeatherDashboard)
    (w : world) :
  let b := bucket_name self in
  let asked := events w ++ [EHeadBucket b; EPrint ("Creating bucket " ++ fmt b)] in
  let run := create_bucket_if_not_exists E self w in
  (forall code msg,
      head_bucket E (events w) b = S3ClientError code msg ->
      code <> "404" ->
      fst run = Ret tt
      /\ creations (events (snd run)) = creations (events w))
  /\ (forall msg code' msg',
        head_bucket E (events w) b = S3ClientError "404" msg ->
        create_bucket E asked b = S3ClientError code' msg' ->
        fst run = Ret tt
        /\ last (events (snd run))
           = Some (EPrint ("Error creating bucket: " ++ msg')))
  /\ (forall msg,
        head_bucket E (events w) b = S3BotoCoreError msg ->
        fst run = Raise (BotoCoreError msg))
  /\ (forall msg msg',
        head_bucket E (events w) b = S3ClientError "404" msg ->
        create_bucket E asked b = S3BotoCoreError msg' ->
        fst run = Raise (BotoCoreError msg')).
Proof.
  intros b asked run. subst run.
  rewrite create_bucket_if_not_exists_run. cbv zeta. fold b. fold asked.
  split; [|split; [|split]].
  - intros code msg H Hne. rewrite H.
    destruct (code =? "404") eqn:Hc;
      [apply String.eqb_eq in Hc; contradiction |].
    split; [reflexivity|].
    cbn [snd after events]. unfold creations.
    rewrite List.filter_app. cbn. apply app_nil_r.
  - intros msg code' msg' H H0. rewrite H.
    cbn [String.eqb Ascii.eqb Bool.eqb]. rewrite H0.
    split; [reflexivity|].
    cbn [snd after events].
    change [EHeadBucket b; EPrint ("Creating bucket " ++ fmt b);
            ECreateBucket b; EPrint ("Error creating bucket: " ++ msg')]
      with ([EHeadBucket b; EPrint ("Creating bucket " ++ fmt b)]
            ++ [ECreateBucket b; EPrint ("Error creating bucket: " ++ msg')]).
    rewrite app_assoc. apply last_two.
  - intros msg H. now rewrite H.
  - intros msg msg' H H0. rewrite H.
    cbn [String.eqb Ascii.eqb Bool.eqb]. now rewrite H0.
Qed.

(** Two runs of the bootstrap: the probe answered 403, and the probe
    answered 404 with the creation refused. *)
Lemma bucket_client_errors_witness :
  let E := Demo.make Demo.weather_server [] false in
  let F := Demo.forbidding E in
  fst (create_bucket_if_not_exists F (attributes F) Demo.start) = Ret tt
  /\ fst (create_bucket_if_not_exists E (attributes E) Demo.start) = Ret tt
  /\ last (events (snd (create_bucket_if_not_exists E (attributes E) Demo.start)))
     = Some (EPrint ("Error creating bucket: "
                     ++ "An error occurred (AccessDenied) when calling the CreateBucket operation: Access Denied")).
Proof.
  intros E F. split.
  - eapply (proj1 (bucket_client_errors_are_not_fatal F (attributes F) Demo.start)).
    + reflexivity.
    + discriminate.
  - eapply (proj1 (proj2 (bucket_client_errors_are_not_fatal E (attributes E) Demo.start)));
      reflexivity.
Defined.

(** C3 as stated fails twice.  With no bucket name configured the probe
    is refused by the client with an error that is no [ClientError]: it
    is not caught, and [main] ends there, before any city.  And a 403 of
    the probe is caught, but nothing is printed. *)
Lemma bucket_errors_uncaught_or_silent :
  let E := Demo.make Demo.weather_server [] true in
  let U := Demo.unconfigured E in
  let F := Demo.forbidding E in
  main U Demo.start
  = (Raise (BotoCoreError "Parameter validation failed"),
     {| heap := []; events := [EHeadBucket None] |})
  /\ create_bucket_if_not_exists F (attributes F) Demo.start
     = (Ret tt,
        {| heap := []; events := [EHeadBucket (Some "weather-bucket")] |})
  /\ console (events (snd (create_bucket_if_not_exists F (attributes F) Demo.start)))
     = [].
Proof. repeat split; vm_compute; reflexivity. Qed.

(** The reference service keeps its buckets. *)
Lemma created_app (may_create : bool) (h1 h2 : trace) (b : string) :
  Demo.created may_create (h1 ++ h2) b
  = Demo.created may_create h1 b || Demo.created may_create h2 b.
Proof.
  induction h1 as [|e h1 IH]; [reflexivity|].
  destruct e as [| | |[b'|]| |]; cbn; rewrite IH; try reflexivity.
  now rewrite orb_assoc.
Qed.

Lemma demo_keeps_buckets (server : string -> params -> http_result)
    (existing : list string) (may_create : bool) (b : option string) :
  keeps_buckets (Demo.make server existing may_create) b.
Proof.
  intros h (h1 & h2 & [[-> Hok] | [-> Hok]]); cbn in *;
    destruct b as [name|]; try discriminate; cbn in *.
  - unfold Demo.present in *. rewrite created_app.
    destruct (existsb (String.eqb name) existing); [reflexivity|].
    cbn in *. destruct (Demo.created may_create h1 name); [reflexivity|discriminate].
  - destruct may_create; [|discriminate].
    unfold Demo.present. rewrite created_app. cbn.
    rewrite String.eqb_refl. cbn.
    now rewrite !orb_true_r.
Qed.

(** C8, as the code has it.  Against a service that keeps its buckets,
    when the bucket exists or the first call creates it, the second of two
    calls in a row finds the bucket with its probe and attempts no
    creation: the two calls make at most one creation call. *)
Theorem ensure_twice_creates_at_most_once (E : env) (self : WeatherDashboard)
    (w : world) :
  let b := bucket_name self in
  keeps_buckets E b ->
  (head_bucket E (events w) b = S3Ok
   \/ exists msg,
        head_bucket E (events w) b = S3ClientError "404" msg
        /\ create_bucket E
             (events w ++ [EHeadBucket b; EPrint ("Creating bucket " ++ fmt b)]) b
           = S3Ok) ->
  exists w1 w2 : world,
    create_bucket_if_not_exists E self w = (Ret tt, w1)
    /\ create_bucket_if_not_exists E self w1 = (Ret tt, w2)
    /\ events w2
       = events w1 ++ [EHeadBucket b; EPrint ("Bucket " ++ fmt b ++ " exists")]
    /\ creations (events w2) = creations (events w1)
    /\ length (creations (events w2)) <= S (length (creations (events w))).
Proof.
  intros b Hkeeps Hfirst.
  assert (Hsecond : forall w1,
             bucket_known E (events w1) b ->
             create_bucket_if_not_exists E self w1
             = (Ret tt, after w1 [EHeadBucket b;
                                  EPrint ("Bucket " ++ fmt b ++ " exists")])).
  { intros w1 Hk. rewrite create_bucket_if_not_exists_run. cbv zeta. fold b.
    now rewrite (Hkeeps _ Hk). }
  assert (Hsame : forall w1,
             creations (events (after w1 [EHeadBucket b;
                                          EPrint ("Bucket " ++ fmt b ++ " exists")]))
             = creations (events w1)).
  { intros w1. cbn [after events]. unfold creations.
    rewrite List.filter_app. cbn. apply app_nil_r. }
  rewrite create_bucket_if_not_exists_run. cbv zeta. fold b.
  destruct Hfirst as [Hok | (msg & H404 & Hcreate)].
  - rewrite Hok. eexists _, _. split; [reflexivity|].
    split; [apply Hsecond|].
    + exists (events w), [EPrint ("Bucket " ++ fmt b ++ " exists")].
      left. split; [reflexivity | exact Hok].
    + split; [reflexivity|]. split; [apply Hsame|].
      rewrite Hsame. cbn [after events]. unfold creations.
      rewrite List.filter_app. cbn. rewrite app_nil_r. lia.
  - rewrite H404. cbn [String.eqb Ascii.eqb Bool.eqb]. rewrite Hcreate.
    eexists _, _. split; [reflexivity|].
    split; [apply Hsecond|].
    + exists (events w ++ [EHeadBucket b; EPrint ("Creating bucket " ++ fmt b)]),
             [EPrint ("Successfully created bucket " ++ fmt b)].
      right. split; [|exact Hcreate].
      cbn [after events]. now rewrite <- app_assoc.
    + split; [reflexivity|]. split; [apply Hsame|].
      rewrite Hsame. cbn [after events]. unfold creations.
      rewrite List.filter_app. cbn. rewrite length_app. cbn. lia.
Qed.

(** No bucket at the start, creation allowed: the first call creates the
    bucket, the second finds it. *)
Lemma ensure_twice_witness :
  let E := Demo.make Demo.weather_server [] true in
  let b := bucket_name (attributes E) in
  exists w1 w2 : world,
    create_bucket_if_not_exists E (attributes E) Demo.start = (Ret tt, w1)
    /\ create_bucket_if_not_exists E (attributes E) w1 = (Ret tt, w2)
    /\ events w2
       = events w1 ++ [EHeadBucket b; EPrint ("Bucket " ++ fmt b ++ " exists")]
    /\ creations (events w2) = creations (events w1)
    /\ length (creations (events w2)) <= S (length (creations (events Demo.start))).
Proof.
  intros E b.
  apply (ensure_twice_creates_at_most_once E (attributes E) Demo.start).
  - apply demo_keeps_buckets.
  - right. eexists. split; reflexivity.
Defined.

(** C8 as stated fails when the creation is refused: the second call
    probes, gets the 404 again and attempts the creation a second time. *)
Lemma ensure_twice_creates_twice :
  let E := Demo.make Demo.weather_server [] false in
  let first := create_bucket_if_not_exists E (attributes E) Demo.start in
  let second := create_bucket_if_not_exists E (attributes E) (snd first) in
  fst first = Ret tt
  /\ fst second = Ret tt
  /\ creations (events (snd second))
     = [ECreateBucket (Some "weather-bucket");
        ECreateBucket (Some "weather-bucket")].
Proof. repeat split; vm_compute; reflexivity. Qed.

(** ** The orchestrator when both fetches succeed *)

Lemma append_assoc (a b c : string) : ((a ++ b) ++ c = a ++ b ++ c)%string.
Proof. induction a as [|ch a IH]; cbn; [reflexivity | now rewrite IH]. Qed.

Lemma key_of_city (city suffix : string) :
  key_of (city ++ suffix) = ("weather-data/" ++ city ++ suffix ++ ".json")%string.
Proof. unfold key_of. now rewrite append_assoc. Qed.

(** A save of a non-empty object when the client raises nothing but
    [ClientError]: it returns, having stamped the object, made the upload
    and printed one line. *)
Lemma save_to_s3_returns (E : env) (self : WeatherDashboard) (l : loc)
    (fields : list (string * json)) (file_name : string) (w : world) :
  heap w !! l = Some (JObj fields) ->
  fields <> [] ->
  (forall h key body msg,
      put_object E h (bucket_name self) key body "application/json"
      <> S3BotoCoreError msg) ->
  exists (ok : bool) (line : string),
    save_to_s3 E self (VRef l) file_name w
    = (Ret ok,
       {| heap := <[l := stamped E w fields]> (heap w);
          events := events w ++ [upload E self file_name (stamped E w fields);
                                 EPrint line] |}).
Proof.
  intros Hl Hne Hclient.
  rewrite (save_to_s3_object E self l fields file_name w Hl Hne). cbv zeta.
  destruct (put_object E _ _ _ _ _) as [|code msg|msg] eqn:Ha.
  - eauto.
  - eauto.
  - exfalso. eapply Hclient. exact Ha.
Qed.

(** A reference a fetch returns is to a new object, the last of the
    heap. *)
Lemma fetch_contract_fresh (E : env) (self : WeatherDashboard)
    (fetch : string -> M value) (base_url prefix : string) :
  fetch_contract E self fetch base_url prefix ->
  forall (city : string) (w w' : world) (l : loc),
    fetch city w = (Ret (VRef l), w') ->
    l = length (heap w) /\ exists j, heap w' = heap w ++ [j].
Proof.
  intros Hc city w w' l Hrun.
  destruct (Hc city w) as (r & w1 & log & Hf & _ & Hcase).
  rewrite Hf in Hrun. injection Hrun as -> <-.
  destruct (requests_get E (events w) base_url (query_of self city)) as [resp|msg].
  - destruct (is_http_error resp); [destruct Hcase as (? & _); discriminate|].
    destruct (json_loads E (text resp)) as [j|msg|cls msg];
      [|destruct Hcase as (? & _); discriminate
       |destruct Hcase as (? & _); discriminate].
    destruct j; destruct Hcase as (Hv & _ & Hh); try discriminate;
      injection Hv as ->; eauto.
  - destruct Hcase as (? & _); discriminate.
Qed.

(** The loop body when both fetches return a non-empty object and the
    client raises nothing but [ClientError] on uploads: the two objects
    are distinct, each is stamped and uploaded in turn, and the visualizer
    and the closing line follow. *)
Lemma main_body_uploads (E : env) (self : WeatherDashboard) (city : string)
    (w w1 w2 : world) (l1 l2 : loc) (f1 f2 : list (string * json)) :
  fetch_weather E self city
    (after w [EPrint (String "010" ("Fetching weather for " ++ city ++ "..."))])
  = (Ret (VRef l1), w1) ->
  fetch_forecast E self city w1 = (Ret (VRef l2), w2) ->
  heap w2 !! l1 = Some (JObj f1) -> f1 <> [] ->
  heap w2 !! l2 = Some (JObj f2) -> f2 <> [] ->
  (forall h key body msg,
      put_object E h (bucket_name self) key body "application/json"
      <> S3BotoCoreError msg) ->
  l1 <> l2
  /\ exists line1 line2 : string,
       let wA := {| heap := <[l1 := stamped E w2 f1]> (heap w2);
                    events := events w2
                      ++ [upload E self (city ++ "_current") (stamped E w2 f1);
                          EPrint line1] |} in
       let wB := {| heap := <[l2 := stamped E wA f2]> (heap wA);
                    events := events wA
                      ++ [upload E self (city ++ "_forecast") (stamped E wA f2);
                          EPrint line2] |} in
       main_body E self city w
       = (visualize_weather E (VRef l2) ;;
          print ("Weather and forecast data for " ++ city ++ " saved to S3!")) wB.
Proof.
  intros Hw Hf Hl1 Hne1 Hl2 Hne2 Hclient.
  assert (Hneq : l1 <> l2).
  { destruct (fetch_contract_fresh _ _ _ _ _ (fetch_weather_contract E self)
                _ _ _ _ Hw) as (-> & j1 & Hh1).
    destruct (fetch_contract_fresh _ _ _ _ _ (fetch_forecast_contract E self)
                _ _ _ _ Hf) as (-> & _).
    rewrite Hh1, length_app. cbn. unfold after. cbn [heap]. lia. }
  split; [exact Hneq|].
  destruct (save_to_s3_returns E self l1 f1 (city ++ "_current") w2
              Hl1 Hne1 Hclient) as (ok1 & line1 & Hs1).
  exists line1.
  set (wA := {| heap := <[l1 := stamped E w2 f1]> (heap w2);
                events := events w2
                          ++ [upload E self (city ++ "_current") (stamped E w2 f1);
                              EPrint line1] |}) in *.
  assert (HlA : heap wA !! l2 = Some (JObj f2)).
  { cbn [wA heap]. now rewrite list_lookup_insert_ne. }
  destruct (save_to_s3_returns E self l2 f2 (city ++ "_forecast") wA
              HlA Hne2 Hclient) as (ok2 & line2 & Hs2).
  exists line2. cbv zeta.
  unfold main_body. unfold bind at 1. unfold print at 1, emit at 1.
  unfold after in Hw. unfold bind at 1. rewrite Hw.
  unfold bind at 1. rewrite Hf.
  unfold bind at 1. unfold bind at 1.
  rewrite (py_bool_contents w2 (VRef l1) (JObj f1) Hl1).
  assert (truthy (JObj f1) = true) as -> by (destruct f1; [congruence|reflexivity]).
  rewrite (py_bool_contents w2 (VRef l2) (JObj f2) Hl2).
  assert (truthy (JObj f2) = true) as -> by (destruct f2; [congruence|reflexivity]).
  unfold bind at 1. rewrite Hs1. unfold bind at 1. rewrite Hs2. reflexivity.
Qed.

(** C1, as the code has it.  For a city for which both fetches return a
    non-empty JSON object, and a client that raises nothing but
    [ClientError] on uploads: the loop body makes exactly two uploads,
    with keys weather-data/{city}_current.json and
    weather-data/{city}_forecast.json in that order, the body of each the
    serialization of its payload with the timestamp of its save; then it
    calls the visualizer on the forecast payload, which by then carries
    its timestamp, and the closing line follows the visualizer. *)
Theorem both_fetched_two_writes_then_chart (E : env) (self : WeatherDashboard)
    (city : string) (w w1 w2 : world) (l1 l2 : loc)
    (f1 f2 : list (string * json)) :
  fetch_weather E self city
    (after w [EPrint (String "010" ("Fetching weather for " ++ city ++ "..."))])
  = (Ret (VRef l1), w1) ->
  fetch_forecast E self city w1 = (Ret (VRef l2), w2) ->
  heap w2 !! l1 = Some (JObj f1) -> f1 <> [] ->
  heap w2 !! l2 = Some (JObj f2) -> f2 <> [] ->
  (forall h key body msg,
      put_object E h (bucket_name self) key body "application/json"
      <> S3BotoCoreError msg) ->
  exists (w3 : world) (line1 line2 t1 t2 : string),
    let f1' := dict_set f1 "timestamp" (JStr t1) in
    let f2' := dict_set f2 "timestamp" (JStr t2) in
    let put1 := EPutObject (bucket_name self)
                  ("weather-data/" ++ city ++ "_current.json")
                  (json_dumps E (JObj f1')) "application/json" in
    let put2 := EPutObject (bucket_name self)
                  ("weather-data/" ++ city ++ "_forecast.json")
                  (json_dumps E (JObj f2')) "application/json" in
    t1 = strftime (datetime_now E (events w2))
    /\ t2 = strftime (datetime_now E (events w2 ++ [put1; EPrint line1]))
    /\ events w3 = events w2 ++ [put1; EPrint line1; put2; EPrint line2]
    /\ main_body E self city w
       = (visualize_weather E (VRef l2) ;;
          print ("Weather and forecast data for " ++ city ++ " saved to S3!")) w3
    /\ heap w3 !! l2 = Some (JObj f2')
    /\ dict_get f2' "timestamp" = Some (JStr t2)
    /\ fullmatch stamp_pattern t2 = true
    /\ (forall k, k <> "timestamp" -> dict_get f2' k = dict_get f2 k)
    /\ storage_writes (events (snd (main_body E self city w)))
       = storage_writes (events w) ++ [put1; put2].
Proof.
  intros Hw Hf Hl1 Hne1 Hl2 Hne2 Hclient.
  destruct (fetch_contract_shape _ _ _ _ _ (fetch_weather_contract E self)
              _ _ _ _ Hw) as (log1 & _ & _ & He1 & (Hp1 & _) & _).
  destruct (fetch_contract_shape _ _ _ _ _ (fetch_forecast_contract E self)
              _ _ _ _ Hf) as (log2 & _ & _ & He2 & (Hp2 & _) & _).
  destruct (main_body_uploads E self city w w1 w2 l1 l2 f1 f2
              Hw Hf Hl1 Hne1 Hl2 Hne2 Hclient)
    as (Hneq & line1 & line2 & Hrun).
  cbv zeta in Hrun.
  set (wA := {| heap := <[l1 := stamped E w2 f1]> (heap w2);
                events := events w2
                          ++ [upload E self (city ++ "_current") (stamped E w2 f1);
                              EPrint line1] |}) in *.
  set (wB := {| heap := <[l2 := stamped E wA f2]> (heap wA);
                events := events wA
                          ++ [upload E self (city ++ "_forecast") (stamped E wA f2);
                              EPrint line2] |}) in *.
  exists wB, line1, line2, (strftime (datetime_now E (events w2))),
         (strftime (datetime_now E (events wA))).
  cbv zeta.
  assert (Hev : events wB
                = events w2
                  ++ [EPutObject (bucket_name self)
                        ("weather-data/" ++ city ++ "_current.json")
                        (json_dumps E (stamped E w2 f1)) "application/json";
                      EPrint line1;
                      EPutObject (bucket_name self)
                        ("weather-data/" ++ city ++ "_forecast.json")
                        (json_dumps E (stamped E wA f2)) "application/json";
                      EPrint line2]).
  { cbn [wB wA events]. unfold upload. rewrite !key_of_city.
    rewrite <- app_assoc. reflexivity. }
  split; [reflexivity|].
  split; [cbn [wA events]; unfold upload, stamped; now rewrite key_of_city|].
  split; [exact Hev|]. split; [exact Hrun|].
  split.
  { cbn [wB heap]. apply list_lookup_insert_eq.
    cbn [wA heap]. rewrite length_insert. eapply lookup_lt_Some; eauto. }
  split; [apply dict_get_set_eq|].
  split; [apply strftime_matches|].
  split; [intros k Hk; now apply dict_get_set_ne|].
  assert (Hquiet : List.filter is_put (events w2) = List.filter is_put (events w)).
  { rewrite He2, He1. cbn [after events]. unfold storage_writes in *.
    rewrite !List.filter_app, Hp1, Hp2. cbn [List.filter is_put app].
    now rewrite !app_nil_r. }
  rewrite Hrun, visualize_then_print_writes_nothing, Hev.
  unfold storage_writes. rewrite List.filter_app, Hquiet. reflexivity.
Qed.

(** Seattle at 12:30:07 on 5 January 2024, with both endpoints serving
    the example documents and the bucket in place. *)
Lemma both_fetched_witness :
  let E := Demo.make Demo.weather_server ["weather-bucket"] true in
  let self := attributes E in
  let w := Demo.start in
  let w0 := after w [EPrint (String "010" ("Fetching weather for " ++ "Seattle" ++ "..."))] in
  let w2 := snd (fetch_forecast E self "Seattle"
                   (snd (fetch_weather E self "Seattle" w0))) in
  let f1 := [("name", JStr "Seattle"); ("main", JObj [("temp", JFloat 41.5)])] in
  let f2 := [("list",
              JArr [JObj [("dt_txt", JStr "2024-01-01 00:00:00");
                          ("main", JObj [("temp", JFloat 32.0)])];
                    JObj [("dt_txt", JStr "2024-01-01 03:00:00");
                          ("main", JObj [("temp", JFloat 35.5)])]])] in
  exists (w3 : world) (line1 line2 t1 t2 : string),
    let f1' := f1 ++ [("timestamp", JStr t1)] in
    let f2' := f2 ++ [("timestamp", JStr t2)] in
    let put1 := EPutObject (Some "weather-bucket")
                  "weather-data/Seattle_current.json"
                  (Demo.dumps (JObj f1')) "application/json" in
    let put2 := EPutObject (Some "weather-bucket")
                  "weather-data/Seattle_forecast.json"
                  (Demo.dumps (JObj f2')) "application/json" in
    t1 = "20240105-123007"
    /\ t2 = "20240105-123007"
    /\ events w3 = events w2 ++ [put1; EPrint line1; put2; EPrint line2]
    /\ main_body E self "Seattle" w
       = (visualize_weather E (VRef 1) ;;
          print ("Weather and forecast data for " ++ "Seattle" ++ " saved to S3!")) w3
    /\ heap w3 !! 1 = Some (JObj f2')
    /\ dict_get f2' "timestamp" = Some (JStr t2)
    /\ fullmatch stamp_pattern t2 = true
    /\ (forall k, k <> "timestamp" -> dict_get f2' k = dict_get f2 k)
    /\ storage_writes (events (snd (main_body E self "Seattle" w)))
       = storage_writes (events w) ++ [put1; put2].
Proof.
  intros E self w w0 w2 f1 f2.
  apply (both_fetched_two_writes_then_chart E self "Seattle" w
           (snd (fetch_weather E self "Seattle" w0)) w2 0 1 f1 f2).
  - vm_compute. reflexivity.
  - vm_compute. reflexivity.
  - vm_compute. reflexivity.
  - discriminate.
  - vm_compute. reflexivity.
  - discriminate.
  - intros h key body msg. unfold self, E. cbn. discriminate.
Defined.

(** C1 as stated fails on payloads that are there but count as false:
    Seattle is in the list, both fetches return an empty object (a
    reference, not [None]), and the loop body uploads nothing and draws
    nothing. *)
Lemma both_fetched_empty_objects_no_writes :
  let E := Demo.make (Demo.answering 200 "OK" (JObj [])) ["weather-bucket"] true in
  let w0 := after Demo.start
              [EPrint (String "010" ("Fetching weather for " ++ "Seattle" ++ "..."))] in
  let first := fetch_weather E (attributes E) "Seattle" w0 in
  let second := fetch_forecast E (attributes E) "Seattle" (snd first) in
  let done := main_body E (attributes E) "Seattle" Demo.start in
  In "Seattle" cities
  /\ fst first = Ret (VRef 0)
  /\ fst second = Ret (VRef 1)
  /\ contents (snd second) (VRef 0) = Some (JObj [])
  /\ contents (snd second) (VRef 1) = Some (JObj [])
  /\ fst done = Ret tt
  /\ storage_writes (events (snd done)) = []
  /\ plots (events (snd done)) = [].
Proof. repeat split; vm_compute; auto. Qed.

(** * Further properties *)

(** ** The visualizer on any payload *)

(** A comprehension ends with the exception of the first element that
    raises. *)
Lemma comprehension_raises {A B} (f : A -> result B) (before : list A)
    (x : A) (rest : list A) (e : exn) :
  Forall (fun a => exists b, f a = Ret b) before ->
  f x = Raise e ->
  comprehension f (before ++ x :: rest) = Raise e.
Proof.
  intros Hb Hx. induction Hb as [|a before [b Ha] _ IH]; cbn.
  - now rewrite Hx.
  - now rewrite Ha, IH.
Qed.

Lemma comprehension_returns {A B} (f : A -> result B) (xs : list A) :
  Forall (fun a => exists b, f a = Ret b) xs ->
  exists ys, comprehension f xs = Ret ys.
Proof.
  induction 1 as [|a xs [b Ha] _ [ys IH]]; cbn; [eauto|].
  rewrite Ha, IH. eauto.
Qed.

(** X1. The visualizer extracts both series before it touches
    matplotlib.  So on every payload either the extraction raises, the
    visualizer raises the same exception and has made no call at all; or
    both series are there, of the same length, and the calls made are an
    initial part of the nine calls of their chart: at least the first,
    all nine when the visualizer returns, and it does return when
    matplotlib draws the chart. *)
Theorem visualize_weather_extracts_before_it_draws (E : env) (v : value)
    (w : world) :
  (exists e : exn,
      visualize_weather E v w = (Raise e, w)
      /\ (fst (timestamps_of v w) = Raise e
          \/ fst (temps_of v w) = Raise e))
  \/ (exists (xs ys : list json) (n : nat),
        timestamps_of v w = (Ret xs, w)
        /\ temps_of v w = (Ret ys, w)
        /\ length xs = length ys
        /\ 1 <= n <= 9
        /\ snd (visualize_weather E v w) = after w (take n (chart xs ys))
        /\ (fst (visualize_weather E v w) = Ret tt -> n = 9)
        /\ (draws E xs ys ->
            visualize_weather E v w = (Ret tt, after w (chart xs ys)))).
Proof.
  pose proof (timestamps_of_world v w) as Hw1.
  pose proof (temps_of_world v w) as Hw2.
  destruct (timestamps_of v w) as [[xs|e] w1] eqn:Hts; cbn in Hw1; subst w1.
  - destruct (temps_of v w) as [[ys|e] w2] eqn:Htm; cbn in Hw2; subst w2.
    + right. exists xs, ys.
      rewrite (visualize_weather_draws E v w xs ys Hts Htm).
      destruct (plt_calls_run E (pyplot_calls xs ys) w)
        as (n & Hn & Hpos & Hsnd & Hfst & Hall).
      exists n. split; [reflexivity|]. split; [reflexivity|].
      split; [eapply series_lengths; eauto|].
      split; [split; [apply Hpos; discriminate|exact Hn]|].
      split; [exact Hsnd|]. split; [exact Hfst|exact Hall].
    + left. exists e. split; [|now right]. unfold visualize_weather.
      unfold bind at 1. rewrite Hts. unfold bind at 1. now rewrite Htm.
  - left. exists e. split; [|now left]. unfold visualize_weather.
    unfold bind at 1. now rewrite Hts.
Qed.

(** A forecast whose only entry has an object for temperature: both
    series are extracted, [figure] and [plot] are called, and the run of
    calls ends there with the TypeError of [plot]. *)
Lemma visualize_weather_extracts_before_it_draws_witness :
  let E := Demo.make Demo.weather_server ["weather-bucket"] true in
  let entry := JObj [("dt_txt", JStr "2024-01-01 00:00:00");
                     ("main", JObj [("temp", JObj [("x", JInt 1)])])] in
  let w := {| heap := [JObj [("list", JArr [entry])]]; events := [] |} in
  let xs := [JStr "2024-01-01 00:00:00"] in
  let ys := [JObj [("x", JInt 1)]] in
  visualize_weather E (VRef 0) w
  = (Raise (OtherError "TypeError"
              "float() argument must be a string or a real number, not 'dict'"),
     after w [EPlt (PltFigure 10 5); EPlt (PltPlot xs ys "o")])
  /\ exists n : nat,
       timestamps_of (VRef 0) w = (Ret xs, w)
       /\ temps_of (VRef 0) w = (Ret ys, w)
       /\ 1 <= n <= 9
       /\ snd (visualize_weather E (VRef 0) w) = after w (take n (chart xs ys)).
Proof.
  intros E entry w xs ys. split; [vm_compute; reflexivity|].
  destruct (visualize_weather_extracts_before_it_draws E (VRef 0) w)
    as [(e & _ & [He | He]) | (xs' & ys' & n & Hts & Htm & _ & Hn & Hsnd & _)].
  - vm_compute in He. discriminate He.
  - vm_compute in He. discriminate He.
  - exists n.
    assert (Hxs : xs' = xs).
    { assert (H : timestamps_of (VRef 0) w = (Ret xs, w)) by reflexivity.
      rewrite H in Hts. now injection Hts as <-. }
    assert (Hys : ys' = ys).
    { assert (H : temps_of (VRef 0) w = (Ret ys, w)) by reflexivity.
      rewrite H in Htm. now injection Htm as <-. }
    rewrite Hxs in Hts, Hsnd. rewrite Hys in Htm, Hsnd.
    split; [exact Hts|]. split; [exact Htm|]. split; [exact Hn|exact Hsnd].
Defined.

(** Without a "list" the first subscript raises. *)
Lemma visualize_weather_no_list (E : env) (l : loc)
    (fields : list (string * json)) (w : world) :
  heap w !! l = Some (JObj fields) ->
  dict_get fields "list" = None ->
  visualize_weather E (VRef l) w = (Raise (KeyError "list"), w).
Proof.
  intros Hl Hnone. unfold visualize_weather. unfold bind at 1.
  unfold timestamps_of, getitem. step. rewrite Hl. cbn [subscript].
  now rewrite Hnone.
Qed.

(** The two series of a well-formed forecast. *)
Lemma series_of_forecast (l : loc) (fields : list (string * json))
    (entries xs ys : list json) (w : world) :
  heap w !! l = Some (JObj fields) ->
  dict_get fields "list" = Some (JArr entries) ->
  Forall2 (fun entry x => subscript entry "dt_txt" = Ret x) entries xs ->
  Forall2 (fun entry y =>
             exists main,
               subscript entry "main" = Ret main
               /\ subscript main "temp" = Ret y) entries ys ->
  timestamps_of (VRef l) w = (Ret xs, w)
  /\ temps_of (VRef l) w = (Ret ys, w).
Proof.
  intros Hl Hlist Hxs Hys. split.
  - unfold timestamps_of, getitem. step. rewrite Hl. cbn [subscript].
    rewrite Hlist. cbn [iterate]. now rewrite (comprehension_Forall2 _ _ _ Hxs).
  - unfold temps_of, getitem. step. rewrite Hl. cbn [subscript].
    rewrite Hlist. cbn [iterate].
    rewrite (comprehension_Forall2 _ entries ys); [reflexivity|].
    eapply Forall2_impl; [exact Hys|].
    intros entry y (main & -> & Hy). exact Hy.
Qed.

(** X2. What the visualizer does with a payload object that is not a
    well-formed forecast.  Without a "list" it raises [KeyError('list')];
    with an empty list it plots two empty series (and returns when
    matplotlib draws them); when the first entry
    that lacks "dt_txt" is an object it raises [KeyError('dt_txt')]; when
    all entries have "dt_txt" and the first entry whose "main" lacks
    "temp" has an object there it raises [KeyError('temp')].  In every
    raising case nothing was plotted. *)
Theorem visualize_weather_malformed (E : env) (l : loc)
    (fields : list (string * json)) (w : world) :
  heap w !! l = Some (JObj fields) ->
  (dict_get fields "list" = None ->
     visualize_weather E (VRef l) w = (Raise (KeyError "list"), w))
  /\ (dict_get fields "list" = Some (JArr []) ->
        timestamps_of (VRef l) w = (Ret [], w)
        /\ temps_of (VRef l) w = (Ret [], w)
        /\ (draws E [] [] ->
            visualize_weather E (VRef l) w = (Ret tt, after w (chart [] []))))
  /\ (forall before entry_fields rest,
        dict_get fields "list"
        = Some (JArr (before ++ JObj entry_fields :: rest)) ->
        Forall (fun entry => exists x, subscript entry "dt_txt" = Ret x)
               before ->
        dict_get entry_fields "dt_txt" = None ->
        visualize_weather E (VRef l) w = (Raise (KeyError "dt_txt"), w))
  /\ (forall before entry main_fields rest,
        dict_get fields "list" = Some (JArr (before ++ entry :: rest)) ->
        Forall (fun entry => exists x, subscript entry "dt_txt" = Ret x)
               (before ++ entry :: rest) ->
        Forall (fun entry =>
                  exists main y,
                    subscript entry "main" = Ret main
                    /\ subscript main "temp" = Ret y) before ->
        subscript entry "main" = Ret (JObj main_fields) ->
        dict_get main_fields "temp" = None ->
        visualize_weather E (VRef l) w = (Raise (KeyError "temp"), w)).
Proof.
  intros Hl.
  assert (Hraise : forall e,
             timestamps_of (VRef l) w = (Raise e, w) ->
             visualize_weather E (VRef l) w = (Raise e, w)).
  { intros e H. unfold visualize_weather. unfold bind at 1. now rewrite H. }
  split; [|split; [|split]].
  - intros Hnone. now apply visualize_weather_no_list with (fields := fields).
  - intros Hempty.
    assert (Hts : timestamps_of (VRef l) w = (Ret [], w)).
    { unfold timestamps_of, getitem. step. rewrite Hl. cbn [subscript].
      now rewrite Hempty. }
    assert (Htm : temps_of (VRef l) w = (Ret [], w)).
    { unfold temps_of, getitem. step. rewrite Hl. cbn [subscript].
      now rewrite Hempty. }
    split; [exact Hts|]. split; [exact Htm|].
    intros Hdraws. now apply visualize_weather_plots.
  - intros before entry_fields rest Hlist Hbefore Hmissing. apply Hraise.
    unfold timestamps_of, getitem. step. rewrite Hl. cbn [subscript].
    rewrite Hlist. cbn [iterate].
    rewrite (comprehension_raises _ before (JObj entry_fields) rest
               (KeyError "dt_txt") Hbefore); [reflexivity|].
    cbn. now rewrite Hmissing.
  - intros before entry main_fields rest Hlist Hall Hbefore Hmain Hmissing.
    unfold visualize_weather. unfold bind at 1.
    assert (Hts : exists xs, timestamps_of (VRef l) w = (Ret xs, w)).
    { destruct (comprehension_returns _ _ Hall) as [xs Hxs].
      exists xs. unfold timestamps_of, getitem. step. rewrite Hl.
      cbn [subscript]. rewrite Hlist. cbn [iterate]. now rewrite Hxs. }
    destruct Hts as [xs ->]. unfold bind at 1.
    unfold temps_of, getitem. step. rewrite Hl. cbn [subscript].
    rewrite Hlist. cbn [iterate].
    rewrite (comprehension_raises _ before entry rest (KeyError "temp"));
      [reflexivity | |].
    + eapply Forall_impl; [exact Hbefore|].
      intros a (main & y & -> & Hy). eauto.
    + rewrite Hmain. cbn. now rewrite Hmissing.
Qed.

(** Four payloads: no list, an empty list, a second entry without
    "dt_txt", a second entry whose "main" has no "temp". *)
Lemma visualize_weather_malformed_witness :
  let good := JObj [("dt_txt", JStr "2024-01-01 00:00:00");
                    ("main", JObj [("temp", JFloat 32.0)])] in
  let undated := JObj [("main", JObj [("temp", JFloat 35.5)])] in
  let cold := JObj [("dt_txt", JStr "2024-01-01 03:00:00");
                    ("main", JObj [("humidity", JInt 80)])] in
  let world_of (doc : json) := {| heap := [doc]; events := [] |} in
  let E := Demo.make Demo.weather_server ["weather-bucket"] true in
  visualize_weather E (VRef 0) (world_of (JObj [("cod", JStr "200")]))
  = (Raise (KeyError "list"), world_of (JObj [("cod", JStr "200")]))
  /\ visualize_weather E (VRef 0) (world_of (JObj [("list", JArr [])]))
     = (Ret tt, after (world_of (JObj [("list", JArr [])])) (chart [] []))
  /\ visualize_weather E (VRef 0) (world_of (JObj [("list", JArr [good; undated])]))
     = (Raise (KeyError "dt_txt"),
        world_of (JObj [("list", JArr [good; undated])]))
  /\ visualize_weather E (VRef 0) (world_of (JObj [("list", JArr [good; cold])]))
     = (Raise (KeyError "temp"), world_of (JObj [("list", JArr [good; cold])])).
Proof.
  intros good undated cold world_of E. split; [|split; [|split]].
  - apply (proj1 (visualize_weather_malformed E 0 [("cod", JStr "200")]
                    (world_of (JObj [("cod", JStr "200")])) eq_refl)).
    reflexivity.
  - apply (proj1 (proj2 (visualize_weather_malformed E 0 [("list", JArr [])]
                           (world_of (JObj [("list", JArr [])])) eq_refl))).
    + reflexivity.
    + intros h call Hin.
      repeat (destruct Hin as [<-|Hin]; [reflexivity|]). destruct Hin.
  - apply (proj1 (proj2 (proj2 (visualize_weather_malformed E 0
                                  [("list", JArr [good; undated])]
                                  (world_of (JObj [("list", JArr [good; undated])]))
                                  eq_refl)))
             [good] [("main", JObj [("temp", JFloat 35.5)])] []).
    + reflexivity.
    + repeat constructor. eexists; reflexivity.
    + reflexivity.
  - apply (proj2 (proj2 (proj2 (visualize_weather_malformed E 0
                                  [("list", JArr [good; cold])]
                                  (world_of (JObj [("list", JArr [good; cold])]))
                                  eq_refl)))
             [good] cold [("humidity", JInt 80)] []).
    + reflexivity.
    + repeat constructor; eexists; reflexivity.
    + repeat constructor. do 2 eexists. split; reflexivity.
    + reflexivity.
    + reflexivity.
Defined.

(** ** The loop body on two fetched objects *)

(** X3. A forecast object without a "list" ends the run.  Both objects
    are uploaded first; then the visualizer's [KeyError('list')] leaves
    the loop body, nothing catches it, and the loop stops there: the
    cities that follow are not processed. *)
Theorem forecast_without_list_ends_the_run (E : env) (self : WeatherDashboard)
    (city : string) (w w1 w2 : world) (l1 l2 : loc)
    (f1 f2 : list (string * json)) :
  fetch_weather E self city
    (after w [EPrint (String "010" ("Fetching weather for " ++ city ++ "..."))])
  = (Ret (VRef l1), w1) ->
  fetch_forecast E self city w1 = (Ret (VRef l2), w2) ->
  heap w2 !! l1 = Some (JObj f1) -> f1 <> [] ->
  heap w2 !! l2 = Some (JObj f2) -> f2 <> [] ->
  (forall h key body msg,
      put_object E h (bucket_name self) key body "application/json"
      <> S3BotoCoreError msg) ->
  dict_get f2 "list" = None ->
  exists (w3 : world) (body1 body2 line1 line2 : string),
    events w3
    = events w2
      ++ [EPutObject (bucket_name self) (key_of (city ++ "_current")) body1
                     "application/json";
          EPrint line1;
          EPutObject (bucket_name self) (key_of (city ++ "_forecast")) body2
                     "application/json";
          EPrint line2]
    /\ main_body E self city w = (Raise (KeyError "list"), w3)
    /\ forall rest : list string,
         for_each (city :: rest) (main_body E self) w
         = (Raise (KeyError "list"), w3).
Proof.
  intros Hw Hf Hl1 Hne1 Hl2 Hne2 Hclient Hnone.
  destruct (main_body_uploads E self city w w1 w2 l1 l2 f1 f2
              Hw Hf Hl1 Hne1 Hl2 Hne2 Hclient)
    as (Hneq & line1 & line2 & Hrun).
  cbv zeta in Hrun.
  set (wA := {| heap := <[l1 := stamped E w2 f1]> (heap w2);
                events := events w2
                          ++ [upload E self (city ++ "_current") (stamped E w2 f1);
                              EPrint line1] |}) in *.
  set (wB := {| heap := <[l2 := stamped E wA f2]> (heap wA);
                events := events wA
                          ++ [upload E self (city ++ "_forecast") (stamped E wA f2);
                              EPrint line2] |}) in *.
  assert (Hraise : main_body E self city w = (Raise (KeyError "list"), wB)).
  { rewrite Hrun. unfold bind at 1.
    rewrite (visualize_weather_no_list E l2
               (dict_set f2 "timestamp"
                         (JStr (strftime (datetime_now E (events wA))))) wB).
    - reflexivity.
    - cbn [wB heap]. apply list_lookup_insert_eq.
      cbn [wA heap]. rewrite length_insert. eapply lookup_lt_Some; eauto.
    - rewrite dict_get_set_ne by discriminate. exact Hnone. }
  exists wB, (json_dumps E (stamped E w2 f1)), (json_dumps E (stamped E wA f2)),
         line1, line2.
  split; [|split].
  - cbn [wB wA events]. unfold upload. now rewrite <- app_assoc.
  - exact Hraise.
  - intros rest. cbn [for_each]. unfold bind at 1. now rewrite Hraise.
Qed.

(** Both endpoints answer with an object that has no "list": Seattle is
    uploaded twice, then the run ends with the [KeyError]. *)
Lemma forecast_without_list_witness :
  let E := Demo.make (Demo.answering 200 "OK" (JObj [("cod", JStr "200")]))
                     ["weather-bucket"] true in
  let self := attributes E in
  let w0 := after Demo.start
              [EPrint (String "010" ("Fetching weather for " ++ "Seattle" ++ "..."))] in
  let w2 := snd (fetch_forecast E self "Seattle"
                   (snd (fetch_weather E self "Seattle" w0))) in
  exists (w3 : world) (body1 body2 line1 line2 : string),
    events w3
    = events w2
      ++ [EPutObject (bucket_name self) (key_of ("Seattle" ++ "_current")) body1
                     "application/json";
          EPrint line1;
          EPutObject (bucket_name self) (key_of ("Seattle" ++ "_forecast")) body2
                     "application/json";
          EPrint line2]
    /\ main_body E self "Seattle" Demo.start = (Raise (KeyError "list"), w3)
    /\ forall rest : list string,
         for_each ("Seattle" :: rest) (main_body E self) Demo.start
         = (Raise (KeyError "list"), w3).
Proof.
  intros E self w0 w2.
  apply (forecast_without_list_ends_the_run E self "Seattle" Demo.start
           (snd (fetch_weather E self "Seattle" w0)) w2 0 1
           [("cod", JStr "200")] [("cod", JStr "200")]).
  - vm_compute. reflexivity.
  - vm_compute. reflexivity.
  - vm_compute. reflexivity.
  - discriminate.
  - vm_compute. reflexivity.
  - discriminate.
  - intros h key body msg. unfold self, E. cbn. discriminate.
  - reflexivity.
Defined.

(** X4. The two payloads of a city are two objects, so each upload
    carries its own payload: the body under the
    current key is the serialization of the current conditions with a
    timestamp, the body under the forecast key that of the forecast with
    a timestamp, and after the two saves each of the caller's objects
    holds its own stamped fields. *)
Theorem uploads_carry_their_own_payload (E : env) (self : WeatherDashboard)
    (city : string) (w w1 w2 : world) (l1 l2 : loc)
    (f1 f2 : list (string * json)) :
  fetch_weather E self city
    (after w [EPrint (String "010" ("Fetching weather for " ++ city ++ "..."))])
  = (Ret (VRef l1), w1) ->
  fetch_forecast E self city w1 = (Ret (VRef l2), w2) ->
  heap w2 !! l1 = Some (JObj f1) -> f1 <> [] ->
  heap w2 !! l2 = Some (JObj f2) -> f2 <> [] ->
  (forall h key body msg,
      put_object E h (bucket_name self) key body "application/json"
      <> S3BotoCoreError msg) ->
  l1 <> l2
  /\ exists (w3 : world) (line1 line2 t1 t2 : string),
       let doc1 := JObj (dict_set f1 "timestamp" (JStr t1)) in
       let doc2 := JObj (dict_set f2 "timestamp" (JStr t2)) in
       fullmatch stamp_pattern t1 = true
       /\ fullmatch stamp_pattern t2 = true
       /\ events w3
          = events w2
            ++ [EPutObject (bucket_name self) (key_of (city ++ "_current"))
                           (json_dumps E doc1) "application/json";
                EPrint line1;
                EPutObject (bucket_name self) (key_of (city ++ "_forecast"))
                           (json_dumps E doc2) "application/json";
                EPrint line2]
       /\ heap w3 !! l1 = Some doc1
       /\ heap w3 !! l2 = Some doc2
       /\ main_body E self city w
          = (visualize_weather E (VRef l2) ;;
             print ("Weather and forecast data for " ++ city
                    ++ " saved to S3!")) w3.
Proof.
  intros Hw Hf Hl1 Hne1 Hl2 Hne2 Hclient.
  destruct (main_body_uploads E self city w w1 w2 l1 l2 f1 f2
              Hw Hf Hl1 Hne1 Hl2 Hne2 Hclient)
    as (Hneq & line1 & line2 & Hrun).
  cbv zeta in Hrun. split; [exact Hneq|].
  set (wA := {| heap := <[l1 := stamped E w2 f1]> (heap w2);
                events := events w2
                          ++ [upload E self (city ++ "_current") (stamped E w2 f1);
                              EPrint line1] |}) in *.
  set (wB := {| heap := <[l2 := stamped E wA f2]> (heap wA);
                events := events wA
                          ++ [upload E self (city ++ "_forecast") (stamped E wA f2);
                              EPrint line2] |}) in *.
  exists wB, line1, line2, (strftime (datetime_now E (events w2))),
         (strftime (datetime_now E (events wA))).
  cbv zeta.
  assert (Hlt1 : l1 < length (heap w2)) by (eapply lookup_lt_Some; eauto).
  assert (Hlt2 : l2 < length (heap w2)) by (eapply lookup_lt_Some; eauto).
  repeat split.
  - apply strftime_matches.
  - apply strftime_matches.
  - cbn [wB wA events]. unfold upload. now rewrite <- app_assoc.
  - cbn [wB wA heap]. rewrite list_lookup_insert_ne by congruence.
    now apply list_lookup_insert_eq.
  - cbn [wB wA heap]. apply list_lookup_insert_eq. now rewrite length_insert.
  - exact Hrun.
Qed.

(** Seattle, with both endpoints serving the example documents and the
    bucket in place. *)
Lemma uploads_carry_their_own_payload_witness :
  let E := Demo.make Demo.weather_server ["weather-bucket"] true in
  let self := attributes E in
  let w0 := after Demo.start
              [EPrint (String "010" ("Fetching weather for " ++ "Seattle" ++ "..."))] in
  let w2 := snd (fetch_forecast E self "Seattle"
                   (snd (fetch_weather E self "Seattle" w0))) in
  let f1 := [("name", JStr "Seattle"); ("main", JObj [("temp", JFloat 41.5)])] in
  let f2 := [("list",
              JArr [JObj [("dt_txt", JStr "2024-01-01 00:00:00");
                          ("main", JObj [("temp", JFloat 32.0)])];
                    JObj [("dt_txt", JStr "2024-01-01 03:00:00");
                          ("main", JObj [("temp", JFloat 35.5)])]])] in
  0 <> 1
  /\ exists (w3 : world) (line1 line2 t1 t2 : string),
       let doc1 := JObj (dict_set f1 "timestamp" (JStr t1)) in
       let doc2 := JObj (dict_set f2 "timestamp" (JStr t2)) in
       fullmatch stamp_pattern t1 = true
       /\ fullmatch stamp_pattern t2 = true
       /\ events w3
          = events w2
            ++ [EPutObject (bucket_name self) (key_of ("Seattle" ++ "_current"))
                           (json_dumps E doc1) "application/json";
                EPrint line1;
                EPutObject (bucket_name self) (key_of ("Seattle" ++ "_forecast"))
                           (json_dumps E doc2) "application/json";
                EPrint line2]
       /\ heap w3 !! 0 = Some doc1
       /\ heap w3 !! 1 = Some doc2
       /\ main_body E self "Seattle" Demo.start
          = (visualize_weather E (VRef 1) ;;
             print ("Weather and forecast data for " ++ "Seattle"
                    ++ " saved to S3!")) w3.
Proof.
  intros E self w0 w2 f1 f2.
  apply (uploads_carry_their_own_payload E self "Seattle" Demo.start
           (snd (fetch_weather E self "Seattle" w0)) w2 0 1 f1 f2).
  - vm_compute. reflexivity.
  - vm_compute. reflexivity.
  - vm_compute. reflexivity.
  - discriminate.
  - vm_compute. reflexivity.
  - discriminate.
  - intros h key body msg. unfold self, E. cbn. discriminate.
Defined.

(** X5. The results of the two saves are not looked at.  For a city with
    a non-empty current object and a well-formed forecast whose chart
    matplotlib draws, the loop body draws the chart of the forecast and
    ends on the line "Weather and forecast data for {city} saved to S3!",
    whatever the storage answered to the two uploads: also when both
    failed with a [ClientError]. *)
Theorem closing_line_whatever_the_uploads (E : env) (self : WeatherDashboard)
    (city : string) (w w1 w2 : world) (l1 l2 : loc)
    (f1 f2 : list (string * json)) (entries xs ys : list json) :
  fetch_weather E self city
    (after w [EPrint (String "010" ("Fetching weather for " ++ city ++ "..."))])
  = (Ret (VRef l1), w1) ->
  fetch_forecast E self city w1 = (Ret (VRef l2), w2) ->
  heap w2 !! l1 = Some (JObj f1) -> f1 <> [] ->
  heap w2 !! l2 = Some (JObj f2) ->
  (forall h key body msg,
      put_object E h (bucket_name self) key body "application/json"
      <> S3BotoCoreError msg) ->
  dict_get f2 "list" = Some (JArr entries) ->
  Forall2 (fun entry x => subscript entry "dt_txt" = Ret x) entries xs ->
  Forall2 (fun entry y =>
             exists main,
               subscript entry "main" = Ret main
               /\ subscript main "temp" = Ret y) entries ys ->
  draws E xs ys ->
  exists (w3 : world) (put1 put2 line1 line2 : event),
    is_put put1 = true /\ is_put put2 = true
    /\ is_print line1 = true /\ is_print line2 = true
    /\ main_body E self city w
       = (Ret tt,
          after w3 (chart xs ys
                    ++ [EPrint ("Weather and forecast data for " ++ city
                                ++ " saved to S3!")]))
    /\ events w3 = events w2 ++ [put1; line1; put2; line2].
Proof.
  intros Hw Hf Hl1 Hne1 Hl2 Hclient Hlist Hxs Hys Hdraws.
  assert (Hne2 : f2 <> []) by (intros ->; discriminate).
  destruct (main_body_uploads E self city w w1 w2 l1 l2 f1 f2
              Hw Hf Hl1 Hne1 Hl2 Hne2 Hclient)
    as (Hneq & line1 & line2 & Hrun).
  cbv zeta in Hrun.
  set (wA := {| heap := <[l1 := stamped E w2 f1]> (heap w2);
                events := events w2
                          ++ [upload E self (city ++ "_current") (stamped E w2 f1);
                              EPrint line1] |}) in *.
  set (wB := {| heap := <[l2 := stamped E wA f2]> (heap wA);
                events := events wA
                          ++ [upload E self (city ++ "_forecast") (stamped E wA f2);
                              EPrint line2] |}) in *.
  assert (HlB : heap wB !! l2
                = Some (JObj (dict_set f2 "timestamp"
                                (JStr (strftime (datetime_now E (events wA))))))).
  { cbn [wB heap]. apply list_lookup_insert_eq.
    cbn [wA heap]. rewrite length_insert. eapply lookup_lt_Some; eauto. }
  assert (HlistB : dict_get (dict_set f2 "timestamp"
                               (JStr (strftime (datetime_now E (events wA)))))
                            "list" = Some (JArr entries)).
  { rewrite dict_get_set_ne by discriminate. exact Hlist. }
  destruct (series_of_forecast l2 _ entries xs ys wB HlB HlistB Hxs Hys)
    as (Hts & Htm).
  exists wB, (upload E self (city ++ "_current") (stamped E w2 f1)),
         (upload E self (city ++ "_forecast") (stamped E wA f2)),
         (EPrint line1), (EPrint line2).
  repeat split.
  - rewrite Hrun. unfold bind at 1.
    rewrite (visualize_weather_plots E (VRef l2) wB xs ys Hts Htm Hdraws).
    unfold print, emit, after. cbn [heap events].
    now rewrite <- app_assoc.
  - cbn [wB wA events]. now rewrite <- app_assoc.
Qed.

(** With the creation refused the reference service never has a bucket
    that was not there at the start. *)
Lemma created_never (h : trace) (b : string) : Demo.created false h b = false.
Proof.
  induction h as [|e h IH]; [reflexivity|].
  destruct e as [| | |[b'|]| |]; cbn; exact IH.
Qed.

(** Seattle with no bucket and the creation refused: both uploads fail,
    the chart is drawn and the closing line printed all the same. *)
Lemma closing_line_witness :
  let E := Demo.make Demo.weather_server [] false in
  let self := attributes E in
  let w0 := after Demo.start
              [EPrint (String "010" ("Fetching weather for " ++ "Seattle" ++ "..."))] in
  let w2 := snd (fetch_forecast E self "Seattle"
                   (snd (fetch_weather E self "Seattle" w0))) in
  let xs := [JStr "2024-01-01 00:00:00"; JStr "2024-01-01 03:00:00"] in
  let ys := [JFloat 32.0; JFloat 35.5] in
  (forall h key body,
      put_object E h (bucket_name self) key body "application/json"
      = S3ClientError "NoSuchBucket" "An error occurred (NoSuchBucket) when calling the PutObject operation: The specified bucket does not exist")
  /\ exists (w3 : world) (put1 put2 line1 line2 : event),
       is_put put1 = true /\ is_put put2 = true
       /\ is_print line1 = true /\ is_print line2 = true
       /\ main_body E self "Seattle" Demo.start
          = (Ret tt,
             after w3 (chart xs ys
                       ++ [EPrint ("Weather and forecast data for " ++ "Seattle"
                                   ++ " saved to S3!")]))
       /\ events w3 = events w2 ++ [put1; line1; put2; line2].
Proof.
  intros E self w0 w2 xs ys. split.
  - intros h key body. unfold self, E. cbn. unfold Demo.s3_put, Demo.present.
    cbn. now rewrite created_never.
  - apply (closing_line_whatever_the_uploads E self "Seattle" Demo.start
             (snd (fetch_weather E self "Seattle" w0)) w2 0 1
             [("name", JStr "Seattle"); ("main", JObj [("temp", JFloat 41.5)])]
             [("list",
               JArr [JObj [("dt_txt", JStr "2024-01-01 00:00:00");
                           ("main", JObj [("temp", JFloat 32.0)])];
                     JObj [("dt_txt", JStr "2024-01-01 03:00:00");
                           ("main", JObj [("temp", JFloat 35.5)])]])]
             [JObj [("dt_txt", JStr "2024-01-01 00:00:00");
                    ("main", JObj [("temp", JFloat 32.0)])];
              JObj [("dt_txt", JStr "2024-01-01 03:00:00");
                    ("main", JObj [("temp", JFloat 35.5)])]]
             xs ys).
    + vm_compute. reflexivity.
    + vm_compute. reflexivity.
    + vm_compute. reflexivity.
    + discriminate.
    + vm_compute. reflexivity.
    + intros h key body msg. unfold self, E. cbn.
      unfold Demo.s3_put, Demo.present. cbn. rewrite created_never.
      discriminate.
    + reflexivity.
    + repeat constructor.
    + repeat (constructor; [eexists; split; reflexivity|]). constructor.
    + intros h call Hin.
      repeat (destruct Hin as [<-|Hin]; [reflexivity|]). destruct Hin.
Defined.

(** ** Object keys *)

Lemma list_of_append (a b : string) :
  list_ascii_of_string (a ++ b)
  = list_ascii_of_string a ++ list_ascii_of_string b.
Proof. induction a as [|c a IH]; cbn; [reflexivity | now rewrite IH]. Qed.

Lemma list_of_string_inj (a b : string) :
  list_ascii_of_string a = list_ascii_of_string b -> a = b.
Proof.
  intros H. rewrite <- (string_of_list_ascii_of_string a),
              <- (string_of_list_ascii_of_string b). now rewrite H.
Qed.

(** Equal strings with tails of the same length have equal heads and
    equal tails. *)
Lemma append_inj_tail (a b s t : string) :
  String.length s = String.length t ->
  (a ++ s = b ++ t)%string ->
  a = b /\ s = t.
Proof.
  intros Hlen Heq.
  apply (f_equal list_ascii_of_string) in Heq.
  rewrite !list_of_append in Heq.
  apply app_inj_2 in Heq.
  - destruct Heq as [Ha Hs]. split; now apply list_of_string_inj.
  - clear Heq. revert t Hlen.
    induction s as [|c s IH]; intros [|d t]; cbn; intros H;
      try discriminate; [reflexivity|].
    f_equal. apply IH. now injection H.
Qed.

(** X6. The object key is f"weather-data/{city}_{kind}.json": two saves
    of [main] get the same key only for the same city and the same kind,
    whatever the city names are.  So the two objects of a city, and the
    objects of different cities, never overwrite one another. *)
Theorem object_keys_are_distinct (c1 c2 : string) (k1 k2 : kind) :
  key_of (file_name_of c1 k1) = key_of (file_name_of c2 k2)
  <-> c1 = c2 /\ k1 = k2.
Proof.
  split; [|now intros [-> ->]].
  unfold key_of, file_name_of. intros H.
  cbn in H. injection H as H.
  apply append_inj_tail in H; [|reflexivity].
  destruct H as [H _].
  destruct k1, k2; cbn in H.
  - apply append_inj_tail in H; [|reflexivity]. now destruct H as [-> _].
  - exfalso.
    change (c2 ++ "_forecast")%string with (c2 ++ ("_" ++ "forecast"))%string in H.
    rewrite <- append_assoc in H.
    apply append_inj_tail in H; [|reflexivity].
    destruct H as [_ H]. discriminate.
  - exfalso.
    change (c1 ++ "_forecast")%string with (c1 ++ ("_" ++ "forecast"))%string in H.
    rewrite <- append_assoc in H.
    apply append_inj_tail in H; [|reflexivity].
    destruct H as [_ H]. discriminate.
  - apply append_inj_tail in H; [|reflexivity]. now destruct H as [-> _].
Qed.

(** ** Saving the same object again *)

Lemma save_to_s3_heap (E : env) (self : WeatherDashboard) (l : loc)
    (fields : list (string * json)) (file_name : string) (w w' : world)
    (r : result bool) :
  heap w !! l = Some (JObj fields) ->
  fields <> [] ->
  save_to_s3 E self (VRef l) file_name w = (r, w') ->
  heap w' = <[l := stamped E w fields]> (heap w).
Proof.
  intros Hl Hne Hrun.
  rewrite (save_to_s3_object E self l fields file_name w Hl Hne) in Hrun.
  cbv zeta in Hrun.
  destruct (put_object E _ _ _ _ _); injection Hrun as _ <-; reflexivity.
Qed.

(** X7. Saving an object that was saved before does not add a second
    timestamp: the field names stay as the first save left them, the
    "timestamp" holds the time of the second save, and the other fields
    are those of the original payload. *)
Theorem save_again_replaces_the_timestamp (E : env) (self : WeatherDashboard)
    (l : loc) (fields : list (string * json)) (name1 name2 : string)
    (w w1 w2 : world) (r1 r2 : result bool) :
  heap w !! l = Some (JObj fields) ->
  fields <> [] ->
  save_to_s3 E self (VRef l) name1 w = (r1, w1) ->
  save_to_s3 E self (VRef l) name2 w1 = (r2, w2) ->
  exists f1 f2 : list (string * json),
    heap w1 !! l = Some (JObj f1)
    /\ heap w2 !! l = Some (JObj f2)
    /\ map fst f2 = map fst f1
    /\ dict_get f2 "timestamp"
       = Some (JStr (strftime (datetime_now E (events w1))))
    /\ forall k, k <> "timestamp" -> dict_get f2 k = dict_get fields k.
Proof.
  intros Hl Hne Hrun1 Hrun2.
  assert (Hlt : l < length (heap w)) by (eapply lookup_lt_Some; eauto).
  pose proof (save_to_s3_heap E self l fields name1 w w1 r1 Hl Hne Hrun1) as Hh1.
  set (f1 := dict_set fields "timestamp"
                      (JStr (strftime (datetime_now E (events w))))) in *.
  assert (Hl1 : heap w1 !! l = Some (JObj f1)).
  { rewrite Hh1. now apply list_lookup_insert_eq. }
  assert (Hne1 : f1 <> []).
  { intros Hnil.
    pose proof (dict_set_truthy fields "timestamp"
                  (JStr (strftime (datetime_now E (events w))))) as Ht.
    fold f1 in Ht. rewrite Hnil in Ht. discriminate. }
  pose proof (save_to_s3_heap E self l f1 name2 w1 w2 r2 Hl1 Hne1 Hrun2) as Hh2.
  exists f1, (dict_set f1 "timestamp"
                       (JStr (strftime (datetime_now E (events w1))))).
  repeat split.
  - exact Hl1.
  - rewrite Hh2. apply list_lookup_insert_eq. eapply lookup_lt_Some; eauto.
  - rewrite dict_set_keys. unfold f1 at 1. now rewrite dict_get_set_eq.
  - apply dict_get_set_eq.
  - intros k Hk. rewrite dict_get_set_ne by exact Hk.
    unfold f1. now apply dict_get_set_ne.
Qed.

(** The current conditions of the example saved under two names. *)
Lemma save_again_witness :
  let E := Demo.make Demo.weather_server ["weather-bucket"] true in
  let self := attributes E in
  let w := {| heap := [Demo.current_sample]; events := [] |} in
  let first := save_to_s3 E self (VRef 0) "Seattle_current" w in
  let second := save_to_s3 E self (VRef 0) "Seattle_again" (snd first) in
  exists f1 f2 : list (string * json),
    heap (snd first) !! 0 = Some (JObj f1)
    /\ heap (snd second) !! 0 = Some (JObj f2)
    /\ map fst f2 = map fst f1
    /\ dict_get f2 "timestamp"
       = Some (JStr (strftime (datetime_now E (events (snd first)))))
    /\ forall k, k <> "timestamp" ->
         dict_get f2 k
         = dict_get [("name", JStr "Seattle");
                     ("main", JObj [("temp", JFloat 41.5)])] k.
Proof.
  intros E self w first second.
  exact (save_again_replaces_the_timestamp E self 0 _ "Seattle_current"
           "Seattle_again" w (snd first) (snd second) (fst first) (fst second)
           eq_refl ltac:(discriminate)
           (surjective_pairing _) (surjective_pairing _)).
Defined.

(** ** The calls of a whole run *)

Section Adds.

Context {A : Type} (P : event -> Prop).

Lemma adds_silent (m : M A) :
  (forall w, events (snd (m w)) = events w) -> adds P m.
Proof.
  intros H w r w' Hrun. exists []. split; [|constructor].
  rewrite app_nil_r. specialize (H w). now rewrite Hrun in H.
Qed.

Lemma adds_ret (a : A) : adds P (ret a).
Proof. now apply adds_silent. Qed.

Lemma adds_raise (e : exn) : adds P (@raise A e).
Proof. now apply adds_silent. Qed.

Lemma adds_lift (r : result A) : adds P (lift r).
Proof. now apply adds_silent. Qed.

Lemma adds_try_except (m : M A) (cls : exn -> bool) (handler : exn -> M A) :
  adds P m -> (forall e, adds P (handler e)) -> adds P (try_except m cls handler).
Proof.
  intros Hm Hh w r w' Hrun. unfold try_except in Hrun.
  destruct (m w) as [[a|e] w1] eqn:Hmw.
  - injection Hrun as <- <-. eapply Hm; eauto.
  - destruct (Hm _ _ _ Hmw) as (m1 & E1 & F1).
    destruct (cls e).
    + destruct (Hh e _ _ _ Hrun) as (m2 & E2 & F2).
      exists (m1 ++ m2). rewrite E2, E1, app_assoc. split; [reflexivity|].
      apply Forall_app; auto.
    + injection Hrun as <- <-. eauto.
Qed.

End Adds.

Lemma adds_bind {A B} (P : event -> Prop) (m : M A) (k : A -> M B) :
  adds P m -> (forall a, adds P (k a)) -> adds P (bind m k).
Proof.
  intros Hm Hk w r w' Hrun. unfold bind in Hrun.
  destruct (m w) as [[a|e] w1] eqn:Hmw.
  - destruct (Hm _ _ _ Hmw) as (m1 & E1 & F1).
    destruct (Hk a _ _ _ Hrun) as (m2 & E2 & F2).
    exists (m1 ++ m2). rewrite E2, E1, app_assoc. split; [reflexivity|].
    apply Forall_app; auto.
  - injection Hrun as <- <-. eapply Hm; eauto.
Qed.

Lemma adds_emit (P : event -> Prop) (e : event) : P e -> adds P (emit e).
Proof.
  intros He w r w' Hrun. unfold emit in Hrun. injection Hrun as <- <-.
  exists [e]. split; [reflexivity | now constructor].
Qed.

Lemma adds_get_events (P : event -> Prop) : adds P get_events.
Proof. now apply adds_silent. Qed.

Lemma adds_deref (P : event -> Prop) (l : loc) : adds P (deref l).
Proof. apply adds_silent. intros w. unfold deref. now destruct (heap w !! l). Qed.

Lemma adds_store (P : event -> Prop) (l : loc) (j : json) : adds P (store l j).
Proof. now apply adds_silent. Qed.

Lemma adds_alloc (P : event -> Prop) (j : json) : adds P (alloc j).
Proof. now apply adds_silent. Qed.

Lemma adds_for_each {A} (P : event -> Prop) (xs : list A) (body : A -> M unit) :
  (forall x, In x xs -> adds P (body x)) -> adds P (for_each xs body).
Proof.
  induction xs as [|x xs IH]; intros H; cbn [for_each].
  - apply adds_ret.
  - apply adds_bind; [apply H; now left|].
    intros _. apply IH. intros y Hy. apply H. now right.
Qed.

(** The rules above, applied as far as they go; what is left is to show
    [P] of the calls met on the way. *)
Ltac adds_step :=
  first
    [ apply adds_ret | apply adds_raise | apply adds_lift
    | apply adds_get_events | apply adds_deref | apply adds_store
    | apply adds_alloc | apply adds_emit
    | apply adds_bind; [|intros ?]
    | apply adds_try_except; [|intros ?]
    | match goal with
      | |- adds _ (match ?x with _ => _ end) => destruct x
      end ].

Ltac adds_run := repeat adds_step.

Section Calls.

Context (E : env) (self : WeatherDashboard) (P : event -> Prop).

Lemma adds_py_bool (v : value) : adds P (py_bool v).
Proof. unfold py_bool. adds_run. Qed.

Lemma adds_getitem (v : value) (k : string) : adds P (getitem v k).
Proof. unfold getitem. adds_run. Qed.

Lemma adds_setitem (v : value) (k : string) (x : json) : adds P (setitem v k x).
Proof. unfold setitem. adds_run. Qed.

Lemma adds_raise_for_status (r : response) : adds P (raise_for_status r).
Proof. unfold raise_for_status. adds_run. Qed.

Lemma adds_document (v : value) : adds P (document v).
Proof. unfold document. adds_run. Qed.

Lemma adds_response_json (r : response) : adds P (response_json E r).
Proof. unfold response_json. adds_run. Qed.

Hypothesis P_print : forall line, P (EPrint line).

Lemma adds_create_bucket_if_not_exists :
  P (EHeadBucket (bucket_name self)) ->
  P (ECreateBucket (bucket_name self)) ->
  adds P (create_bucket_if_not_exists E self).
Proof.
  intros Hh Hc. unfold create_bucket_if_not_exists. adds_run; auto.
Qed.

Hypothesis P_plt : forall call, P (EPlt call).

Lemma adds_main_body (city : string) :
  P (EGet "http://api.openweathermap.org/data/2.5/weather" (query_of self city)) ->
  P (EGet "http://api.openweathermap.org/data/2.5/forecast" (query_of self city)) ->
  (forall doc, P (upload E self (city ++ "_current") doc)) ->
  (forall doc, P (upload E self (city ++ "_forecast") doc)) ->
  adds P (main_body E self city).
Proof.
  intros Hw Hf Hc Hfc. unfold main_body.
  adds_run;
    auto using adds_py_bool, adds_getitem, adds_setitem, adds_document,
               adds_raise_for_status, adds_response_json.
  - apply Hc.
  - apply Hfc.
Qed.

End Calls.

Lemma loop_calls_create_nothing (E : env) (self : WeatherDashboard)
    (towns : list string) (rest : list event) :
  Forall (loop_call E self towns) rest -> creations rest = [].
Proof.
  induction 1 as [|e rest He _ IH]; [reflexivity|].
  destruct e; cbn in *; try exact IH. contradiction.
Qed.

(** The loop over the cities of [main] adds loop calls only. *)
Lemma adds_loop (E : env) (self : WeatherDashboard) :
  adds (loop_call E self cities) (for_each cities (main_body E self)).
Proof.
  apply adds_for_each. intros city Hin.
  apply adds_main_body; unfold loop_call, upload; auto.
  - split; [now left | eauto].
  - split; [now right | eauto].
  - intros doc. repeat split; [|eauto]. exists city, Current. auto.
  - intros doc. repeat split; [|eauto]. exists city, Forecast. auto.
Qed.

(** The bootstrap starts with the probe and calls the creation at most
    once. *)
Lemma bootstrap_shape (E : env) (self : WeatherDashboard) (w : world) :
  exists tail : list event,
    events (snd (create_bucket_if_not_exists E self w))
    = events w ++ EHeadBucket (bucket_name self) :: tail
    /\ Forall (bootstrap_call self) tail
    /\ length (creations tail) <= 1.
Proof.
  rewrite create_bucket_if_not_exists_run. cbv zeta.
  destruct (head_bucket E (events w) (bucket_name self)) as [|code msg|msg].
  - eexists. split; [reflexivity|]. split; [repeat constructor | cbn; lia].
  - destruct (code =? "404").
    + destruct (create_bucket E _ (bucket_name self));
        (eexists; split; [reflexivity|]; split; [repeat constructor | cbn; lia]).
    + eexists. split; [reflexivity|]. split; [constructor | cbn; lia].
  - eexists. split; [reflexivity|]. split; [constructor | cbn; lia].
Qed.

(** The constructor returns the attributes or raises what boto3 raised,
    and calls nothing outside. *)
Lemma init_run (E : env) (w : world) :
  init E w
  = match boto3_client E (getenv E "AWS_REGION") with
    | ClientBuilt => (Ret (attributes E), w)
    | ClientRefused cls msg => (Raise (OtherError cls msg), w)
    end.
Proof. unfold init. now destruct (boto3_client E _). Qed.

(** X8. What a run of [main] can send out, for every environment.  Its
    calls are those of the bootstrap (console lines, the probe and the
    creation of the configured bucket) followed by those of the loop, and
    the loop makes no other calls than: console lines; chart calls; GET
    requests to one of the two endpoints with the query {q, appid, units:
    imperial} of one of the three cities; uploads into the configured
    bucket, with content type application/json, of a text that
    [json.dumps] wrote, under the key of one of the three cities and one
    of the two kinds. *)
Theorem main_calls (E : env) (w : world) :
  exists boot rest : list event,
    events (snd (main E w)) = events w ++ boot ++ rest
    /\ Forall (bootstrap_call (attributes E)) boot
    /\ Forall (loop_call E (attributes E) cities) rest.
Proof.
  destruct (bootstrap_shape E (attributes E) w) as (tail & Hev & Htail & _).
  unfold main. unfold bind at 1. rewrite init_run.
  destruct (boto3_client E (getenv E "AWS_REGION")) as [|cls msg].
  2:{ exists [], []. cbn [snd]. rewrite !app_nil_r. repeat split; constructor. }
  unfold bind at 1.
  destruct (create_bucket_if_not_exists E (attributes E) w) as [[[]|e] w1] eqn:Hboot;
    cbn [snd] in Hev.
  - destruct (for_each cities (main_body E (attributes E)) w1) as [r w2] eqn:Hloop.
    destruct (adds_loop E (attributes E) _ _ _ Hloop) as (rest & Hrest & Hcalls).
    exists (EHeadBucket (bucket_name (attributes E)) :: tail), rest.
    cbn [snd]. rewrite Hrest, Hev, <- app_assoc.
    repeat split; auto. constructor; [reflexivity | exact Htail].
  - exists (EHeadBucket (bucket_name (attributes E)) :: tail), [].
    cbn [snd]. rewrite Hev, app_nil_r.
    repeat split; auto. constructor; [reflexivity | exact Htail].
Qed.

(** X9. A run of [main] first builds the dashboard.  When boto3 refuses
    to build the client (a region name of the wrong shape), the run ends
    there with that exception and has called nothing outside.  Otherwise
    the first call to the outside is the probe of the configured bucket,
    and the whole run calls the bucket creation at most once. *)
Theorem main_builds_the_client_then_probes (E : env) (w : world) :
  match boto3_client E (getenv E "AWS_REGION") with
  | ClientRefused cls msg => main E w = (Raise (OtherError cls msg), w)
  | ClientBuilt =>
      exists more : list event,
        events (snd (main E w))
        = events w ++ EHeadBucket (getenv E "AWS_BUCKET_NAME") :: more
        /\ length (creations more) <= 1
  end.
Proof.
  destruct (bootstrap_shape E (attributes E) w) as (tail & Hev & _ & Hone).
  destruct (boto3_client E (getenv E "AWS_REGION")) as [|cls msg] eqn:Hclient.
  2:{ unfold main, bind. now rewrite init_run, Hclient. }
  unfold main. unfold bind at 1. rewrite init_run, Hclient.
  unfold bind at 1.
  destruct (create_bucket_if_not_exists E (attributes E) w) as [[[]|e] w1] eqn:Hboot;
    cbn [snd] in Hev.
  - destruct (for_each cities (main_body E (attributes E)) w1) as [r w2] eqn:Hloop.
    destruct (adds_loop E (attributes E) _ _ _ Hloop) as (rest & Hrest & Hcalls).
    exists (tail ++ rest). cbn [snd]. rewrite Hrest, Hev, <- app_assoc.
    split; [reflexivity|].
    unfold creations in *. rewrite List.filter_app, length_app.
    pose proof (loop_calls_create_nothing _ _ _ _ Hcalls) as Hnone.
    unfold creations in Hnone. rewrite Hnone. cbn. lia.
  - exists tail. cbn [snd]. rewrite Hev. split; [reflexivity | exact Hone].
Qed.

(** The region name "us-east-1 " (a blank at the end) is refused and the
    run makes no call; with "us-east-1" the run starts with the probe of
    "weather-bucket". *)
Lemma main_builds_the_client_then_probes_witness :
  let E := Demo.make Demo.weather_server ["weather-bucket"] true in
  let F := Demo.in_region "us-east-1 " E in
  main F Demo.start
  = (Raise (OtherError "InvalidRegionError"
              "Provided region_name 'us-east-1 ' doesn't match a supported format."),
     Demo.start)
  /\ exists more : list event,
       events (snd (main E Demo.start))
       = EHeadBucket (Some "weather-bucket") :: more
       /\ length (creations more) <= 1.
Proof.
  intros E F. split.
  - exact (main_builds_the_client_then_probes F Demo.start).
  - exact (main_builds_the_client_then_probes E Demo.start).
Defined.

(** ** How many requests and uploads a city costs *)

Lemma main_body_after_fetches (E : env) (self : WeatherDashboard)
    (city : string) :
  main_body E self city
  = (print (String "010" ("Fetching weather for " ++ city ++ "...")) ;;
     weather_data <- fetch_weather E self city ;;
     forecast_data <- fetch_forecast E self city ;;
     after_fetches E self city weather_data forecast_data).
Proof. reflexivity. Qed.




Lemma py_bool_world (v : value) (w : world) : snd (py_bool v w) = w.
Proof.
  unfold py_bool. destruct v as [|l]; step; [reflexivity|].
  now destruct (heap w !! l).
Qed.

(** A save makes at most one upload, whatever it is given. *)
Lemma save_to_s3_at_most_one_upload (E : env) (self : WeatherDashboard)
    (v : value) (file_name : string) (w : world) :
  length (storage_writes (events (snd (save_to_s3 E self v file_name w))))
  <= S (length (storage_writes (events w))).
Proof.
  destruct (contents w v) as [j|] eqn:Hj.
  - destruct (truthy j) eqn:Ht.
    + destruct v as [|l]; cbn in Hj; [injection Hj as <-; discriminate|].
      destruct j;
        try (destruct (save_to_s3_not_object E self l _ file_name w Hj Ht
                         ltac:(discriminate)) as [msg ->]; cbn [snd]; lia).
      assert (Hne : fields <> []) by (intros ->; discriminate).
      rewrite (save_to_s3_object E self l fields file_name w Hj Hne).
      cbv zeta.
      destruct (put_object E _ _ _ _ _); cbn [snd events];
        unfold storage_writes; rewrite List.filter_app, length_app; cbn; lia.
    + rewrite save_to_s3_falsy; [cbn [snd]; lia|].
      rewrite (py_bool_contents _ _ _ Hj). now rewrite Ht.
  - destruct v as [|l]; [discriminate|]. cbn in Hj.
    unfold save_to_s3, py_bool. step. rewrite Hj. cbn [snd]. lia.
Qed.

Lemma after_fetches_at_most_two_uploads (E : env) (self : WeatherDashboard)
    (city : string) (wd fd : value) (w : world) :
  length (storage_writes (events (snd (after_fetches E self city wd fd w))))
  <= 2 + length (storage_writes (events w)).
Proof.
  unfold after_fetches. unfold bind at 1.
  assert (Hboth : snd ((t <- py_bool wd ;;
                        if t then py_bool fd else ret false) w) = w).
  { unfold bind. pose proof (py_bool_world wd w) as H1.
    destruct (py_bool wd w) as [[t|e] w1]; cbn in H1; subst w1; [|reflexivity].
    destruct t; [apply py_bool_world | reflexivity]. }
  destruct ((t <- py_bool wd ;; if t then py_bool fd else ret false) w)
    as [[both|e] w'] eqn:Hrun; cbn in Hboth; subst w'; [|cbn [snd]; lia].
  destruct both.
  - unfold bind at 1.
    pose proof (save_to_s3_at_most_one_upload E self wd (city ++ "_current") w)
      as H1.
    destruct (save_to_s3 E self wd (city ++ "_current") w) as [[ok1|e1] wA];
      cbn [snd] in *; [|lia].
    unfold bind at 1.
    pose proof (save_to_s3_at_most_one_upload E self fd (city ++ "_forecast") wA)
      as H2.
    destruct (save_to_s3 E self fd (city ++ "_forecast") wA) as [[ok2|e2] wB];
      cbn [snd] in *; [|lia].
    rewrite visualize_then_print_writes_nothing. lia.
  - unfold print, emit. cbn [snd events]. unfold storage_writes.
    rewrite List.filter_app, length_app. cbn. lia.
Qed.

Lemma main_body_at_most_two_uploads (E : env) (self : WeatherDashboard)
    (city : string) (w : world) :
  length (storage_writes (events (snd (main_body E self city w))))
  <= 2 + length (storage_writes (events w)).
Proof.
  rewrite main_body_after_fetches.
  unfold bind at 1. unfold print at 1, emit at 1.
  set (w0 := {| heap := heap w; events := events w ++ _ |}).
  assert (H0 : storage_writes (events w0) = storage_writes (events w)).
  { subst w0. cbn [events]. unfold storage_writes.
    rewrite List.filter_app. cbn. apply app_nil_r. }
  unfold bind at 1.
  destruct (fetch_weather E self city w0) as [r1 w1] eqn:Hw.
  destruct (fetch_contract_shape _ _ _ _ _ (fetch_weather_contract E self)
              _ _ _ _ Hw) as (log1 & _ & _ & He1 & (Hp1 & _) & _).
  assert (H1 : storage_writes (events w1) = storage_writes (events w)).
  { rewrite He1. unfold storage_writes in *.
    rewrite !List.filter_app, Hp1, !app_nil_r. exact H0. }
  destruct r1 as [wd|e]; [|cbn [snd]; rewrite H1; lia].
  unfold bind at 1.
  destruct (fetch_forecast E self city w1) as [r2 w2] eqn:Hf.
  destruct (fetch_contract_shape _ _ _ _ _ (fetch_forecast_contract E self)
              _ _ _ _ Hf) as (log2 & _ & _ & He2 & (Hp2 & _) & _).
  assert (H2 : storage_writes (events w2) = storage_writes (events w)).
  { rewrite He2. unfold storage_writes in *.
    rewrite !List.filter_app, Hp2, !app_nil_r. exact H1. }
  destruct r2 as [fd|e]; [|cbn [snd]; rewrite H2; lia].
  pose proof (after_fetches_at_most_two_uploads E self city wd fd w2) as H.
  rewrite H2 in H. exact H.
Qed.

Lemma for_each_uploads {A} (body : A -> M unit) (n : nat) :
  (forall x w,
      length (storage_writes (events (snd (body x w))))
      <= n + length (storage_writes (events w))) ->
  forall xs w,
    length (storage_writes (events (snd (for_each xs body w))))
    <= n * length xs + length (storage_writes (events w)).
Proof.
  intros Hbody xs. induction xs as [|x xs IH]; intros w; cbn [for_each].
  - cbn. lia.
  - unfold bind. pose proof (Hbody x w) as Hx.
    destruct (body x w) as [[[]|e] w1]; cbn [snd] in *.
    + specialize (IH w1). cbn [length]. lia.
    + cbn [length]. lia.
Qed.

(** X11. The loop body makes at most two uploads, whatever the fetches
    returned and the storage answered; so a run of [main], with its three
    cities, makes at most six. *)
Theorem main_uploads_at_most_two_per_city (E : env) (w : world) :
  (forall self city w',
      length (storage_writes (events (snd (main_body E self city w'))))
      <= 2 + length (storage_writes (events w')))
  /\ length (storage_writes (events (snd (main E w))))
     <= 6 + length (storage_writes (events w)).
Proof.
  split; [intros; apply main_body_at_most_two_uploads|].
  destruct (bootstrap_shape E (attributes E) w) as (tail & Hev & Htail & _).
  assert (Hboot : storage_writes
                    (events (snd (create_bucket_if_not_exists E (attributes E) w)))
                  = storage_writes (events w)).
  { rewrite Hev. unfold storage_writes. rewrite List.filter_app. cbn.
    assert (List.filter is_put tail = []) as ->; [|apply app_nil_r].
    clear Hev. induction Htail as [|e tail He _ IH]; [reflexivity|].
    destruct e; cbn in *; try exact IH; contradiction. }
  unfold main. unfold bind at 1. rewrite init_run.
  destruct (boto3_client E (getenv E "AWS_REGION")) as [|cls msg];
    [|cbn [snd]; lia].
  unfold bind at 1.
  destruct (create_bucket_if_not_exists E (attributes E) w) as [[[]|e] w1];
    cbn [snd] in *; [|rewrite Hboot; lia].
  pose proof (for_each_uploads (main_body E (attributes E)) 2
                (main_body_at_most_two_uploads E (attributes E)) cities w1) as H.
  cbn [cities length] in H. rewrite Hboot in H. lia.
Qed.




(** ** The timestamp *)

Lemma digit_inj (a b : nat) : digit a = digit b -> a mod 10 = b mod 10.
Proof.
  unfold digit. intros H.
  pose proof (Nat.mod_upper_bound a 10 ltac:(lia)).
  pose proof (Nat.mod_upper_bound b 10 ltac:(lia)).
  apply (f_equal nat_of_ascii) in H.
  rewrite !nat_ascii_embedding in H by lia. lia.
Qed.

Lemma four_digits (a b : nat) :
  a < 100 * 100 -> b < 100 * 100 ->
  (a / 1000) mod 10 = (b / 1000) mod 10 ->
  (a / 100) mod 10 = (b / 100) mod 10 ->
  (a / 10) mod 10 = (b / 10) mod 10 ->
  a mod 10 = b mod 10 ->
  a = b.
Proof.
  intros Ha Hb H1 H2 H3 H4.
  assert (E : forall n, n / 100 = n / 10 / 10 /\ n / 1000 = n / 10 / 10 / 10).
  { intros n. rewrite !Nat.Div0.div_div. split; reflexivity. }
  destruct (E a) as [Ea1 Ea2], (E b) as [Eb1 Eb2].
  rewrite Ea1, Eb1 in H2. rewrite Ea2, Eb2 in H1.
  assert (a / 10 / 10 / 10 < 10).
  { rewrite <- Ea2. apply Nat.Div0.div_lt_upper_bound. lia. }
  assert (b / 10 / 10 / 10 < 10).
  { rewrite <- Eb2. apply Nat.Div0.div_lt_upper_bound. lia. }
  rewrite (Nat.mod_small (a / 10 / 10 / 10)) in H1 by lia.
  rewrite (Nat.mod_small (b / 10 / 10 / 10)) in H1 by lia.
  pose proof (Nat.div_mod_eq a 10). pose proof (Nat.div_mod_eq (a / 10) 10).
  pose proof (Nat.div_mod_eq (a / 10 / 10) 10).
  pose proof (Nat.div_mod_eq b 10). pose proof (Nat.div_mod_eq (b / 10) 10).
  pose proof (Nat.div_mod_eq (b / 10 / 10) 10).
  lia.
Qed.

Lemma pad2_inj (a b : nat) (s t : string) :
  a < 100 -> b < 100 ->
  (pad2 a ++ s = pad2 b ++ t)%string -> a = b /\ s = t.
Proof.
  intros Ha Hb H. unfold pad2 in H. cbn [String.append] in H.
  injection H as H1 H2 H3.
  apply digit_inj in H1, H2. split; [|exact H3].
  assert (a / 10 < 10) by (apply Nat.Div0.div_lt_upper_bound; lia).
  assert (b / 10 < 10) by (apply Nat.Div0.div_lt_upper_bound; lia).
  rewrite (Nat.mod_small (a / 10)) in H1 by lia.
  rewrite (Nat.mod_small (b / 10)) in H1 by lia.
  pose proof (Nat.div_mod_eq a 10). pose proof (Nat.div_mod_eq b 10).
  lia.
Qed.

Lemma pad4_inj (a b : nat) (s t : string) :
  a < 100 * 100 -> b < 100 * 100 ->
  (pad4 a ++ s = pad4 b ++ t)%string -> a = b /\ s = t.
Proof.
  intros Ha Hb H. unfold pad4, pad2 in H. cbn [String.append] in H.
  injection H as H1 H2 H3 H4 H5.
  apply digit_inj in H1, H2, H3, H4. split; [|exact H5].
  now apply four_digits.
Qed.

(** X12. The timestamp determines the time it was made from: two valid
    datetimes with the same '%Y%m%d-%H%M%S' text agree in year, month,
    day, hour, minute and second. *)
Theorem strftime_inj (dt1 dt2 : datetime) :
  valid_datetime dt1 ->
  valid_datetime dt2 ->
  strftime dt1 = strftime dt2 ->
  dt1 = dt2.
Proof.
  intros (Hy1 & Hm1 & Hd1 & Hh1 & Hmi1 & Hs1) (Hy2 & Hm2 & Hd2 & Hh2 & Hmi2 & Hs2) H.
  destruct dt1 as [y1 m1 d1 h1 mi1 s1], dt2 as [y2 m2 d2 h2 mi2 s2].
  cbn [year month day hour minute second] in *. unfold strftime in H.
  cbn [year month day hour minute second] in H.
  apply pad4_inj in H; [|lia|lia]. destruct H as [-> H].
  apply pad2_inj in H; [|lia|lia]. destruct H as [-> H].
  apply pad2_inj in H; [|lia|lia]. destruct H as [-> H].
  assert (Hdash : forall s t, ("-" ++ s = "-" ++ t)%string -> s = t).
  { intros s t Hst. cbn in Hst. now injection Hst. }
  apply Hdash in H.
  apply pad2_inj in H; [|lia|lia]. destruct H as [-> H].
  apply pad2_inj in H; [|lia|lia]. destruct H as [-> H].
  assert (Hs : (pad2 s1 ++ EmptyString = pad2 s2 ++ EmptyString)%string).
  { unfold pad2 in *. cbn [String.append]. exact H. }
  apply pad2_inj in Hs; [|lia|lia]. now destruct Hs as [-> _].
Qed.

(** The noon of the reference clock. *)
Lemma strftime_inj_witness :
  valid_datetime Demo.noon /\ strftime Demo.noon = "20240105-123007"
  /\ Demo.noon = Demo.noon.
Proof.
  assert (Hv : valid_datetime Demo.noon) by (unfold valid_datetime; cbn; lia).
  split; [exact Hv|]. split; [reflexivity|].
  exact (strftime_inj Demo.noon Demo.noon Hv Hv eq_refl).
Defined.
